(** * node-poweredup: hub/port/device layer

    A shallow embedding of the hub classes ([BaseHub], [Hub]) and of the
    device decoders ([DuploTrainBaseColorSensor], [VoltageSensor],
    [RemoteControlButton]), with the properties of attach/detach
    bookkeeping, waiter resolution and buffer decoding proved on it.

    Conventions of the embedding:
    - a JavaScript [number] that only ever holds an integer (port ids,
      device type codes, modes, byte values) is a [Z]; the voltage, which
      is a genuine double, is a primitive [float] (IEEE 754 binary64, the
      arithmetic of JavaScript);
    - [undefined] is [None];
    - a call that may throw returns a [Completion];
    - events handed to the [EventEmitter] and calls of waiter callbacks are
      recorded in a trace, in the order in which they happen; the
      listeners of the application are outside the model (they are taken
      not to call back into the hub while an event is being emitted), and
      a promise that is resolved runs its continuation later, as a
      microtask. *)

From Stdlib Require Import ZArith Floats Uint63 Strings.Byte.
From stdpp Require Import base option list sorting gmap strings.

Set Warnings "-inexact-float".
Local Open Scope Z_scope.

(* ===================================================================== *)
(** ** JavaScript values, completions and buffers *)
(* ===================================================================== *)

Module JS.

Inductive Exception :=
| RangeError              (* Buffer read outside the buffer *)
| TypeError               (* calling something that is not a function *)
| Error (message : string).

(** The outcome of a call: it returns a value or it throws. *)
Inductive Completion (A : Type) :=
| Normal (a : A)
| Throw (e : Exception).
Arguments Normal {A} a.
Arguments Throw {A} e.

Definition bind {A B} (c : Completion A) (k : A -> Completion B) : Completion B :=
  match c with
  | Normal a => k a
  | Throw e => Throw e
  end.

Definition throws {A} (c : Completion A) : Prop :=
  match c with Normal _ => False | Throw _ => True end.

Definition returns {A} (c : Completion A) : Prop :=
  match c with Normal _ => True | Throw _ => False end.

(** A Node [Buffer] is a sequence of bytes. *)
Abbreviation Buffer := (list byte).

Definition byte_val (b : byte) : Z := Z.of_N (Byte.to_N b).

(** [message[i]]: the byte as a number, [undefined] outside the buffer. *)
Definition index (message : Buffer) (i : nat) : option Z :=
  byte_val <$> message !! i.

(** [message.readUInt16LE(offset)]: [first + last * 2 ** 8], a
    [RangeError] when either byte lies outside the buffer. *)
Definition readUInt16LE (message : Buffer) (offset : nat) : Completion Z :=
  match index message offset, index message (S offset) with
  | Some first, Some last => Normal (first + last * 2 ^ 8)
  | _, _ => Throw RangeError
  end.

(** [message.readInt16LE(offset)]: the same two bytes read as a
    two's-complement 16-bit value. *)
Definition readInt16LE (message : Buffer) (offset : nat) : Completion Z :=
  match index message offset, index message (S offset) with
  | Some first, Some last =>
      let val := first + last * 2 ^ 8 in
      Normal (if Z.testbit val 15 then val - 2 ^ 16 else val)
  | _, _ => Throw RangeError
  end.

(** An integer as a JavaScript number. *)
Definition number (z : Z) : float :=
  match z with
  | Z0 => 0%float
  | Zpos _ => PrimFloat.of_uint63 (Uint63.of_Z z)
  | Zneg _ => PrimFloat.opp (PrimFloat.of_uint63 (Uint63.of_Z (- z)))
  end.

(** [v !== undefined] *)
Definition defined {A} (v : option A) : bool :=
  match v with Some _ => true | None => false end.

(** The truth value of a number that may be [undefined], as [if (v)]
    takes it: [undefined] and [0] are false. *)
Definition truthy (v : option Z) : bool :=
  match v with Some n => negb (n =? 0) | None => false end.

(** A table value used in arithmetic: [undefined] becomes [NaN]. *)
Definition to_number (v : option float) : float := default PrimFloat.nan v.

End JS.

Import JS.

(** [x ← c; k] runs [c] and, unless it throws, goes on with [k]. *)
#[global] Instance Completion_bind : MBind Completion := fun _ _ k c => JS.bind c k.

(* ===================================================================== *)
(** ** Constants of [consts.ts]

    [consts.ts] is not part of the sources at hand.  The enumerations are
    taken as parameters wherever they are used: the names below are the
    ones the sources mention; their numeric codes are supplied by a
    function from names to codes. *)
(* ===================================================================== *)

Module Consts.

Inductive HubTypeName :=
| UNKNOWN | DUPLO_TRAIN_BASE | REMOTE_CONTROL | TECHNIC_MEDIUM_HUB.

Inductive DeviceTypeName :=
| LIGHT | TRAIN_MOTOR | SIMPLE_MEDIUM_LINEAR_MOTOR
| MOVE_HUB_MEDIUM_LINEAR_MOTOR | MOTION_SENSOR | TILT_SENSOR
| MOVE_HUB_TILT_SENSOR | TECHNIC_MEDIUM_HUB_TILT_SENSOR
| TECHNIC_MEDIUM_HUB_GYRO_SENSOR | TECHNIC_MEDIUM_HUB_ACCELEROMETER
| MEDIUM_LINEAR_MOTOR | TECHNIC_LARGE_LINEAR_MOTOR
| TECHNIC_XLARGE_LINEAR_MOTOR | COLOR_DISTANCE_SENSOR | VOLTAGE_SENSOR
| CURRENT_SENSOR | REMOTE_CONTROL_BUTTON | HUB_LED
| DUPLO_TRAIN_BASE_COLOR_SENSOR | DUPLO_TRAIN_BASE_MOTOR
| DUPLO_TRAIN_BASE_SPEAKER | DUPLO_TRAIN_BASE_SPEEDOMETER.

#[global] Instance HubTypeName_eq_dec : EqDecision HubTypeName.
Proof. solve_decision. Defined.

#[global] Instance DeviceTypeName_eq_dec : EqDecision DeviceTypeName.
Proof. solve_decision. Defined.

End Consts.

(* ===================================================================== *)
(** ** Events emitted by the decoders *)
(* ===================================================================== *)

Module Events.

(** The payload handed to [notify] / [emitGlobal]. *)
Inductive Payload :=
| Color (color : Z)                     (* { color } *)
| Reflect (reflect : option Z)          (* { reflect } *)
| Rgb (red green blue : Z)              (* { red, green, blue } *)
| Voltage (voltage : float)             (* a bare number *)
| Button (event : option Z).            (* the raw byte message[4] *)

Inductive Emission :=
| notify (event : string) (payload : Payload)
| emitGlobal (event : string) (payload : Payload).

(** The part of a device a decoder reads: its current mode, the getter
    [isWeDo2SmartHub] of the base class and, through its hub, the hub
    type and the auto-parse switch.  The base class lives in [device.ts],
    which is not part of the sources, so what its getter answers is a
    field here. *)
Record DeviceState := {
  _mode : option Z;
  isWeDo2SmartHub : bool;
  hub_type : Z;
  hub_autoParse : bool;
}.

End Events.

Import Events.

(* ===================================================================== *)
(** ** devices/duplotrainbasecolorsensor.ts *)
(* ===================================================================== *)

Module DuploTrainBaseColorSensor.

Module Mode.
Definition COLOR : Z := 0x00.
Definition REFLECTIVITY : Z := 0x02.
Definition RGB : Z := 0x03.
End Mode.

Definition ModeMap : gmap string Z :=
  <["rgb" := Mode.RGB]>
    (<["reflect" := Mode.REFLECTIVITY]> (<["color" := Mode.COLOR]> ∅)).

Section Receive.

(** [Device.receive] of the base class, which lives in [device.ts]
    (not part of the sources): the decoder hands the buffer over to it
    when the hub is in auto-parse mode. *)
Variable super_receive : DeviceState -> Buffer -> Completion (list Emission).

Definition receive (this : DeviceState) (message : Buffer)
  : Completion (list Emission) :=
  if hub_autoParse this then super_receive this message
  else
    match _mode this with
    | Some mode =>
        if mode =? Mode.COLOR then
          (* [message[4] <= 10] is false when [message[4]] is undefined *)
          match index message 4 with
          | Some color =>
              if color <=? 10
              then Normal [notify "color" (Color color)]
              else Normal []
          | None => Normal []
          end
        else if mode =? Mode.REFLECTIVITY then
          let reflect := index message 4 in
          Normal [notify "reflect" (Reflect reflect)]
        else if mode =? Mode.RGB then
          (* Math.floor(x / 4) on a 16-bit unsigned x *)
          r ← readUInt16LE message 4;
          g ← readUInt16LE message 6;
          b ← readUInt16LE message 8;
          Normal [notify "rgb" (Rgb (r / 4) (g / 4) (b / 4))]
        else Normal []
    | None => Normal []
    end.

End Receive.

End DuploTrainBaseColorSensor.

(* ===================================================================== *)
(** ** devices/voltagesensor.ts *)
(* ===================================================================== *)

Module VoltageSensor.

Import Consts.

Module Mode.
Definition VOLTAGE : Z := 0x00.
End Mode.

Definition ModeMap : gmap string Z := <["voltage" := Mode.VOLTAGE]> ∅.

Section Receive.

(** [Consts.HubType]: the code of each hub type name. *)
Variable HubType : HubTypeName -> Z.

(** The tables are object literals with computed keys: the entries are
    stored in the order written, a later one replacing an earlier one
    with the same key. *)
Definition MaxVoltageValue : gmap Z float :=
  <[HubType REMOTE_CONTROL := 6.4%float]>
    (<[HubType DUPLO_TRAIN_BASE := 6.4%float]>
       (<[HubType UNKNOWN := 9.615%float]> ∅)).

Definition MaxVoltageRaw : gmap Z float :=
  <[HubType TECHNIC_MEDIUM_HUB := 4095%float]>
    (<[HubType REMOTE_CONTROL := 3200%float]>
       (<[HubType DUPLO_TRAIN_BASE := 3047%float]>
          (<[HubType UNKNOWN := 3893%float]> ∅))).

(** The two-tier lookup of one table. *)
Definition lookup_or_unknown (table : gmap Z float) (hubType : Z) : float :=
  match table !! hubType with
  | Some v => v
  | None => to_number (table !! HubType UNKNOWN)
  end.

Definition receive (this : DeviceState) (message : Buffer)
  : Completion (list Emission) :=
  match _mode this with
  | Some mode =>
      if mode =? Mode.VOLTAGE then
        if isWeDo2SmartHub this then
          raw ← readInt16LE message 2;
          let voltage := (number raw / 40)%float in
          Normal [emitGlobal "voltage" (Voltage voltage)]
        else
          let maxVoltageValue := lookup_or_unknown MaxVoltageValue (hub_type this) in
          let maxVoltageRaw := lookup_or_unknown MaxVoltageRaw (hub_type this) in
          raw ← readUInt16LE message 4;
          let voltage := (number raw * maxVoltageValue / maxVoltageRaw)%float in
          Normal [emitGlobal "voltage" (Voltage voltage)]
      else Normal []
  | None => Normal []
  end.

End Receive.

End VoltageSensor.

(* ===================================================================== *)
(** ** The remote control button decoder (second part of
       devices/voltagesensor.ts) *)
(* ===================================================================== *)

Module RemoteControlButton.

Module Mode.
Definition BUTTON_EVENTS : Z := 0x00.
End Mode.

Definition ModeMap : gmap string Z := <["remoteButton" := Mode.BUTTON_EVENTS]> ∅.

Definition receive (this : DeviceState) (message : Buffer)
  : Completion (list Emission) :=
  match _mode this with
  | Some mode =>
      if mode =? Mode.BUTTON_EVENTS then
        let event := index message 4 in
        Normal [emitGlobal "remoteButton" (Button event)]
      else Normal []
  | None => Normal []
  end.

(** The button state codes, in the order written. *)
Definition ButtonState : gmap string Z :=
  <["RELEASED" := 0x00]>
    (<["STOP" := 0x7f]> (<["DOWN" := 0xff]> (<["UP" := 0x01]> ∅))).

End RemoteControlButton.

(* ===================================================================== *)
(** ** Devices as the hub sees them *)
(* ===================================================================== *)

(** The classes a hub instantiates.  [Class.Device] is the generic base
    class; the others are its decoders. *)
Module Class.

Inductive t :=
| Device
| Light | TrainMotor | SimpleMediumLinearMotor | MoveHubMediumLinearMotor
| MotionSensor | TiltSensor | MoveHubTiltSensor | TechnicMediumHubTiltSensor
| TechnicMediumHubGyroSensor | TechnicMediumHubAccelerometerSensor
| MediumLinearMotor | TechnicLargeLinearMotor | TechnicXLargeLinearMotor
| ColorDistanceSensor | VoltageSensor | CurrentSensor | RemoteControlButton
| HubLED | DuploTrainBaseColorSensor | DuploTrainBaseMotor
| DuploTrainBaseSpeaker | DuploTrainBaseSpeedometer.

#[global] Instance eq_dec : EqDecision t.
Proof. solve_decision. Defined.

End Class.

Module Model.

Import Consts.

(** A device object: the class it was built from and the arguments its
    constructor stored ([new Device(hub, portId, modeMap, type)]). *)
Record Device := {
  class : Class.t;
  portId : Z;
  modeMap : option (gmap string Z);
  type : Z;
}.

#[global] Instance Device_eq_dec : EqDecision Device.
Proof. solve_decision. Defined.

(** The order in which the entries of a table keyed by array indices are
    enumerated. *)
Definition key_le (a b : Z * Device) : Prop := a.1 <= b.1.

#[global] Instance key_le_dec a b : Decision (key_le a b).
Proof. unfold key_le. apply _. Defined.

(** What a pending wait is waiting for. *)
Inductive Waiter :=
| AtPort (portName : string)      (* pushed by waitForDeviceAtPort *)
| ByType (deviceType : Z).        (* pushed by waitForDeviceByType *)

(** An entry of [_attachCallbacks]: the closure of one wait, with the
    promise it resolves. *)
Record Callback := {
  promise : nat;
  waiter : Waiter;
}.

#[global] Instance Waiter_eq_dec : EqDecision Waiter.
Proof. solve_decision. Defined.

#[global] Instance Callback_eq_dec : EqDecision Callback.
Proof. solve_decision. Defined.

(** What a hub does that can be observed from outside. *)
Inductive Event :=
| emit (event : string) (device : Device)    (* this.emit(event, device) *)
| invoke (promise : nat) (device : Device)   (* a waiter's callback is called *)
| resolve (promise : nat) (device : Device)  (* resolve(device) *)
| reject (promise : nat) (e : Exception).    (* the executor threw *)

#[global] Instance Exception_eq_dec : EqDecision Exception.
Proof. solve_decision. Defined.

#[global] Instance Event_eq_dec : EqDecision Event.
Proof. solve_decision. Defined.

(** A plain object used as a table from names to numbers, as the list of
    its own properties in the order [Object.keys] enumerates them. *)
Abbreviation Table := (list (string * Z)).

(** [o[key]] among the own properties of [o]. *)
Fixpoint property (o : Table) (key : string) : option Z :=
  match o with
  | [] => None
  | (k, v) :: rest => if decide (k = key) then Some v else property rest key
  end.

(** [Object.keys(o)] *)
Definition Object_keys (o : Table) : list string := o.*1.

(** The names a plain object inherits from [Object.prototype]. *)
Definition Object_prototype : list string :=
  [ "constructor"; "__defineGetter__"; "__defineSetter__"; "hasOwnProperty";
    "__lookupGetter__"; "__lookupSetter__"; "isPrototypeOf";
    "propertyIsEnumerable"; "toString"; "valueOf"; "__proto__";
    "toLocaleString" ].

(** What [o[key]] yields for an arbitrary name: the number of an own
    property; for a name that is not an own property but is inherited, a
    member of [Object.prototype] (a function, or the prototype itself for
    [__proto__]); and [undefined] otherwise.  [property] above is the
    lookup among the own properties, which is all there is for a name
    taken from [Object.keys]. *)
Inductive Member :=
| Own (n : Z)
| Inherited.

Definition member (o : Table) (key : string) : option Member :=
  match property o key with
  | Some n => Some (Own n)
  | None => if decide (key ∈ Object_prototype) then Some Inherited else None
  end.

(** The truth value [if (v)] takes: a function or an object is true. *)
Definition truthy_member (v : option Member) : bool :=
  match v with
  | Some (Own n) => truthy (Some n)
  | Some Inherited => true
  | None => false
  end.

(** [devices[v]]: a number is the key itself; a function or an object
    used as a key is turned into a string that is no port id, so that
    nothing is found. *)
Definition at_key {V} (devices : gmap Z V) (v : Member) : option V :=
  match v with
  | Own n => devices !! n
  | Inherited => None
  end.

(** An object literal with computed keys: the entries are stored in the
    order written, a later one replacing an earlier one with the same
    key. *)
Definition object_literal {V} (entries : list (Z * V)) : gmap Z V :=
  foldl (fun o kv => <[kv.1 := kv.2]> o) ∅ entries.

(** What happens to a hub: the transport reports a device attached or
    detached, or the application asks to wait for a device. *)
Inductive Call :=
| attach (device : Device)
| detach (device : Device)
| waitAtPort (portName : string) (promise : nat)
| waitByType (deviceType : Z) (promise : nat).

Section Constructors.

(** [Consts.DeviceType]: the code of each device type name. *)
Variable DeviceType : DeviceTypeName -> Z.

(** The decoder classes other than [VoltageSensor] and
    [DuploTrainBaseColorSensor] are not part of the sources: the mode
    map and the type their constructors pass on to the [Device]
    constructor are parameters. *)
Variable super_args : Class.t -> option (gmap string Z) * Z.

(** [new constructor(hub, portId)] *)
Definition new (constructor : Class.t) (portId : Z) : Device :=
  match constructor with
  | Class.VoltageSensor =>
      {| class := constructor; portId := portId;
         modeMap := Some VoltageSensor.ModeMap;
         type := DeviceType VOLTAGE_SENSOR |}
  | Class.DuploTrainBaseColorSensor =>
      {| class := constructor; portId := portId;
         modeMap := Some DuploTrainBaseColorSensor.ModeMap;
         type := DeviceType DUPLO_TRAIN_BASE_COLOR_SENSOR |}
  | _ =>
      {| class := constructor; portId := portId;
         modeMap := (super_args constructor).1;
         type := (super_args constructor).2 |}
  end.

(** [new Device(hub, portId, modeMap, type)] *)
Definition new_Device (portId : Z) (modeMap : option (gmap string Z))
    (type : Z) : Device :=
  {| class := Class.Device; portId := portId; modeMap := modeMap;
     type := type |}.

End Constructors.

End Model.

Import Model.

(* ===================================================================== *)
(** ** hubs/basehub.ts *)
(* ===================================================================== *)

Module BaseHub.

Import Consts.

Record State := {
  _attachedDevices : gmap Z Device;
  _type : Z;
  _portMap : Table;
  _attachCallbacks : list Callback;
}.

(** The hub as its constructor leaves it. *)
Definition create (portMap : Table) (type : Z) : State :=
  {| _attachedDevices := ∅; _type := type; _portMap := portMap;
     _attachCallbacks := [] |}.

Definition set_attachedDevices (this : State) (devices : gmap Z Device) : State :=
  {| _attachedDevices := devices; _type := _type this;
     _portMap := _portMap this; _attachCallbacks := _attachCallbacks this |}.

Definition set_attachCallbacks (this : State) (callbacks : list Callback) : State :=
  {| _attachedDevices := _attachedDevices this; _type := _type this;
     _portMap := _portMap this; _attachCallbacks := callbacks |}.

Definition port_not_found (portName : string) : Exception :=
  Error ("Port " +:+ portName +:+ " does not exist on this hub type").

Definition getDeviceAtPort (this : State) (portName : string)
  : Completion (option Device) :=
  let portId := member (_portMap this) portName in
  if defined portId
  then Normal (portId ≫= at_key (_attachedDevices this))
  else Throw (port_not_found portName).

(** [Object.values(this._attachedDevices)].  Port ids that are array
    indices for JavaScript (integers from 0 up to 2^32 - 2) are enumerated
    in ascending order, and that is the order given here.  JavaScript
    lists any other key after those, in the order of insertion, which the
    table does not record: for such keys only the content of the list is
    modelled, not its order. *)
Definition getDevices (this : State) : list Device :=
  (merge_sort key_le (map_to_list (_attachedDevices this))).*2.

Definition getDevicesByType (this : State) (deviceType : Z) : list Device :=
  filter (fun device => type device = deviceType) (getDevices this).

Fixpoint first_port (portMap : Table) (ports : list string) (portId : Z)
  : option string :=
  match ports with
  | [] => None
  | port :: rest =>
      if decide (property portMap port = Some portId) then Some port
      else first_port portMap rest portId
  end.

Definition getPortNameForPortId (this : State) (portId : Z) : option string :=
  first_port (_portMap this) (Object_keys (_portMap this)) portId.

(** Modelled from the spec: the getter [Device.portName] is declared in
    [device.ts], which is missing; the spec gives the hub the reverse
    lookup [getPortNameForPortId] over the fixed port map, and the getter
    asks the owning hub for the name of the device's port. *)
Definition portName (this : State) (device : Device) : option string :=
  getPortNameForPortId this (portId device).

(** The closure pushed by a wait, applied to a device: whether it is
    satisfied, and what it does. *)
Definition callback (this : State) (cb : Callback) (device : Device)
  : bool * list Event :=
  match waiter cb with
  | AtPort name =>
      if decide (portName this device = Some name)
      then (true, [resolve (promise cb) device])
      else (false, [])
  | ByType deviceType =>
      if decide (type device = deviceType)
      then (true, [resolve (promise cb) device])
      else (false, [])
  end.

Definition waitForDeviceAtPort (this : State) (name : string) (promise : nat)
  : State * list Event :=
  match getDeviceAtPort this name with
  | Throw e => (this, [reject promise e])
  | Normal (Some existingDevice) => (this, [resolve promise existingDevice])
  | Normal None =>
      (set_attachCallbacks this
         (_attachCallbacks this ++ [{| promise := promise; waiter := AtPort name |}]),
       [])
  end.

Definition waitForDeviceByType (this : State) (deviceType : Z) (promise : nat)
  : State * list Event :=
  match getDevicesByType this deviceType with
  | existingDevice :: _ => (this, [resolve promise existingDevice])
  | [] =>
      (set_attachCallbacks this
         (_attachCallbacks this ++ [{| promise := promise; waiter := ByType deviceType |}]),
       [])
  end.

(** The loop of [_attachDevice]:
<<
      let i = this._attachCallbacks.length;
      while (i--) {
          const callback = this._attachCallbacks[i];
          if (callback(device)) {
              this._attachCallbacks.splice(i, 1);
          }
      }
>>
    [scan run device (S i) callbacks] is the loop at the test [i--] with
    [i + 1] in the variable: the test succeeds and the body runs with
    [i].  Calling an entry that is not there would be a [TypeError]. *)
Fixpoint scan (run : Callback -> Device -> bool * list Event) (device : Device)
    (i : nat) (callbacks : list Callback)
  : Completion (list Callback * list Event) :=
  match i with
  | O => Normal (callbacks, [])
  | S i =>
      match callbacks !! i with
      | Some cb =>
          let '(satisfied, effects) := run cb device in
          let callbacks := if satisfied then delete i callbacks else callbacks in
          '(callbacks, trace) ← scan run device i callbacks;
          Normal (callbacks, invoke (promise cb) device :: effects ++ trace)
      | None => Throw TypeError
      end
  end.

(** A waiter stays pending when its callback answers false. *)
Definition declines (run : Callback -> Device -> bool * list Event)
    (device : Device) (cb : Callback) : Prop :=
  (run cb device).1 = false.

#[global] Instance declines_dec run device cb : Decision (declines run device cb).
Proof. unfold declines. apply _. Defined.

(** The hub after the assignment
    [this._attachedDevices[device.portId] = device]. *)
Definition stored (this : State) (device : Device) : State :=
  set_attachedDevices this (<[portId device := device]> (_attachedDevices this)).

Definition _attachDevice (this : State) (device : Device)
  : Completion (State * list Event) :=
  let this := stored this device in
  let i := length (_attachCallbacks this) in
  '(callbacks, trace) ← scan (callback this) device i (_attachCallbacks this);
  Normal (set_attachCallbacks this callbacks, emit "attach" device :: trace).

Definition _detachDevice (this : State) (device : Device)
  : State * list Event :=
  (set_attachedDevices this (delete (portId device) (_attachedDevices this)),
   [emit "detach" device]).

Definition _getDeviceByPortId (this : State) (portId : Z) : option Device :=
  _attachedDevices this !! portId.

(** Every device of the table sits under its own port id. *)
Definition keyed (this : State) : Prop :=
  forall (p : Z) (device : Device),
    _attachedDevices this !! p = Some device -> portId device = p.

Section CreateDevice.

Variable DeviceType : DeviceTypeName -> Z.
Variable super_args : Class.t -> option (gmap string Z) * Z.

Definition registry : list (DeviceTypeName * Class.t) :=
  [ (LIGHT, Class.Light);
    (TRAIN_MOTOR, Class.TrainMotor);
    (SIMPLE_MEDIUM_LINEAR_MOTOR, Class.SimpleMediumLinearMotor);
    (MOVE_HUB_MEDIUM_LINEAR_MOTOR, Class.MoveHubMediumLinearMotor);
    (MOTION_SENSOR, Class.MotionSensor);
    (TILT_SENSOR, Class.TiltSensor);
    (MOVE_HUB_TILT_SENSOR, Class.MoveHubTiltSensor);
    (TECHNIC_MEDIUM_HUB_TILT_SENSOR, Class.TechnicMediumHubTiltSensor);
    (TECHNIC_MEDIUM_HUB_GYRO_SENSOR, Class.TechnicMediumHubGyroSensor);
    (TECHNIC_MEDIUM_HUB_ACCELEROMETER, Class.TechnicMediumHubAccelerometerSensor);
    (MEDIUM_LINEAR_MOTOR, Class.MediumLinearMotor);
    (TECHNIC_LARGE_LINEAR_MOTOR, Class.TechnicLargeLinearMotor);
    (TECHNIC_XLARGE_LINEAR_MOTOR, Class.TechnicXLargeLinearMotor);
    (COLOR_DISTANCE_SENSOR, Class.ColorDistanceSensor);
    (VOLTAGE_SENSOR, Class.VoltageSensor);
    (CURRENT_SENSOR, Class.CurrentSensor);
    (REMOTE_CONTROL_BUTTON, Class.RemoteControlButton);
    (HUB_LED, Class.HubLED);
    (DUPLO_TRAIN_BASE_COLOR_SENSOR, Class.DuploTrainBaseColorSensor);
    (DUPLO_TRAIN_BASE_MOTOR, Class.DuploTrainBaseMotor);
    (DUPLO_TRAIN_BASE_SPEAKER, Class.DuploTrainBaseSpeaker);
    (DUPLO_TRAIN_BASE_SPEEDOMETER, Class.DuploTrainBaseSpeedometer) ].

Definition deviceConstructors : gmap Z Class.t :=
  object_literal (prod_map DeviceType id <$> registry).

Definition _createDevice (this : State) (deviceType : Z) (portId : Z) : Device :=
  match deviceConstructors !! deviceType with
  | Some constructor => new DeviceType super_args constructor portId
  | None => new_Device portId None deviceType
  end.

End CreateDevice.

(** The hub driven by a sequence of calls. *)
Definition handle (this : State) (n : Call)
  : Completion (State * list Event) :=
  match n with
  | attach device => _attachDevice this device
  | detach device => Normal (_detachDevice this device)
  | waitAtPort name promise => Normal (waitForDeviceAtPort this name promise)
  | waitByType deviceType promise =>
      Normal (waitForDeviceByType this deviceType promise)
  end.

Fixpoint run (this : State) (ns : list Call)
  : Completion (State * list Event) :=
  match ns with
  | [] => Normal (this, [])
  | n :: ns =>
      '(this, trace) ← handle this n;
      '(this, trace') ← run this ns;
      Normal (this, trace ++ trace')
  end.

(** The getter [ports]: [Object.keys(this._portMap)]. *)
Definition ports (this : State) : list string := Object_keys (_portMap this).

End BaseHub.

(* ===================================================================== *)
(** ** hubs/hub.ts *)
(* ===================================================================== *)

Module Hub.

Import Consts.

Record State := {
  _attachedDevices : gmap Z Device;
  _type : Z;
  _portMap : Table;
  _attachCallbacks : list Callback;
}.

Definition create (portMap : Table) (type : Z) : State :=
  {| _attachedDevices := ∅; _type := type; _portMap := portMap;
     _attachCallbacks := [] |}.

Definition set_attachedDevices (this : State) (devices : gmap Z Device) : State :=
  {| _attachedDevices := devices; _type := _type this;
     _portMap := _portMap this; _attachCallbacks := _attachCallbacks this |}.

Definition set_attachCallbacks (this : State) (callbacks : list Callback) : State :=
  {| _attachedDevices := _attachedDevices this; _type := _type this;
     _portMap := _portMap this; _attachCallbacks := callbacks |}.

Definition port_not_found (portName : string) : Exception :=
  Error ("Port " +:+ portName +:+ " does not exist on this hub type").

(** Here the test is [if (portId)], on the truth value of the number. *)
Definition getDeviceAtPort (this : State) (portName : string)
  : Completion (option Device) :=
  let portId := member (_portMap this) portName in
  if truthy_member portId
  then Normal (portId ≫= at_key (_attachedDevices this))
  else Throw (port_not_found portName).

(** [Object.values(this._attachedDevices)].  Port ids that are array
    indices for JavaScript (integers from 0 up to 2^32 - 2) are enumerated
    in ascending order, and that is the order given here.  JavaScript
    lists any other key after those, in the order of insertion, which the
    table does not record: for such keys only the content of the list is
    modelled, not its order. *)
Definition getDevices (this : State) : list Device :=
  (merge_sort key_le (map_to_list (_attachedDevices this))).*2.

Definition getDevicesByType (this : State) (deviceType : Z) : list Device :=
  filter (fun device => type device = deviceType) (getDevices this).

Fixpoint first_port (portMap : Table) (ports : list string) (portId : Z)
  : option string :=
  match ports with
  | [] => None
  | port :: rest =>
      if decide (property portMap port = Some portId) then Some port
      else first_port portMap rest portId
  end.

Definition getPortNameForPortId (this : State) (portId : Z) : option string :=
  first_port (_portMap this) (Object_keys (_portMap this)) portId.

(** Modelled from the spec: the getter [Device.portName] is declared in
    [device.ts], which is missing; the spec gives the hub the reverse
    lookup [getPortNameForPortId] over the fixed port map, and the getter
    asks the owning hub for the name of the device's port. *)
Definition portName (this : State) (device : Device) : option string :=
  getPortNameForPortId this (portId device).

(** The closures of this class return nothing: only what they do is
    recorded. *)
Definition callback (this : State) (cb : Callback) (device : Device)
  : list Event :=
  match waiter cb with
  | AtPort name =>
      if decide (portName this device = Some name)
      then [resolve (promise cb) device]
      else []
  | ByType deviceType =>
      if decide (type device = deviceType)
      then [resolve (promise cb) device]
      else []
  end.

Definition waitForDeviceAtPort (this : State) (name : string) (promise : nat)
  : State * list Event :=
  match getDeviceAtPort this name with
  | Throw e => (this, [reject promise e])
  | Normal (Some existingDevice) => (this, [resolve promise existingDevice])
  | Normal None =>
      (set_attachCallbacks this
         (_attachCallbacks this ++ [{| promise := promise; waiter := AtPort name |}]),
       [])
  end.

Definition waitForDeviceByType (this : State) (deviceType : Z) (promise : nat)
  : State * list Event :=
  match getDevicesByType this deviceType with
  | existingDevice :: _ => (this, [resolve promise existingDevice])
  | [] =>
      (set_attachCallbacks this
         (_attachCallbacks this ++ [{| promise := promise; waiter := ByType deviceType |}]),
       [])
  end.

(** [this._attachCallbacks.forEach((callback) => { callback(device); })] *)
Fixpoint forEach (run : Callback -> Device -> list Event) (device : Device)
    (callbacks : list Callback) : list Event :=
  match callbacks with
  | [] => []
  | cb :: rest =>
      invoke (promise cb) device :: run cb device ++ forEach run device rest
  end.

(** The hub after the assignment
    [this._attachedDevices[device.portId] = device]. *)
Definition stored (this : State) (device : Device) : State :=
  set_attachedDevices this (<[portId device := device]> (_attachedDevices this)).

Definition _attachDevice (this : State) (device : Device)
  : State * list Event :=
  let this := stored this device in
  (this,
   emit "attach" device :: forEach (callback this) device (_attachCallbacks this)).

Definition _detachDevice (this : State) (device : Device)
  : State * list Event :=
  (set_attachedDevices this (delete (portId device) (_attachedDevices this)),
   [emit "detach" device]).

Definition _getDeviceByPortId (this : State) (portId : Z) : option Device :=
  _attachedDevices this !! portId.

Section CreateDevice.

Variable DeviceType : DeviceTypeName -> Z.
Variable super_args : Class.t -> option (gmap string Z) * Z.

(** The cases of the [switch], in the order written. *)
Definition cases : list (DeviceTypeName * Class.t) :=
  [ (LIGHT, Class.Light);
    (TRAIN_MOTOR, Class.TrainMotor);
    (SIMPLE_MEDIUM_LINEAR_MOTOR, Class.SimpleMediumLinearMotor);
    (MOVE_HUB_MEDIUM_LINEAR_MOTOR, Class.MoveHubMediumLinearMotor);
    (MOTION_SENSOR, Class.MotionSensor);
    (TILT_SENSOR, Class.TiltSensor);
    (MEDIUM_LINEAR_MOTOR, Class.MediumLinearMotor);
    (TECHNIC_LARGE_LINEAR_MOTOR, Class.TechnicLargeLinearMotor);
    (TECHNIC_XLARGE_LINEAR_MOTOR, Class.TechnicXLargeLinearMotor);
    (COLOR_DISTANCE_SENSOR, Class.ColorDistanceSensor) ].

(** A [switch] takes the first case whose label is strictly equal to
    the value, and the [default] when there is none. *)
Fixpoint switch (cs : list (DeviceTypeName * Class.t)) (deviceType : Z)
  : option Class.t :=
  match cs with
  | [] => None
  | (label, constructor) :: rest =>
      if deviceType =? DeviceType label then Some constructor
      else switch rest deviceType
  end.

Definition _createDevice (this : State) (deviceType : Z) (portId : Z) : Device :=
  match switch cases deviceType with
  | Some constructor => new DeviceType super_args constructor portId
  | None => new_Device portId None deviceType
  end.

End CreateDevice.

Definition handle (this : State) (n : Call) : State * list Event :=
  match n with
  | attach device => _attachDevice this device
  | detach device => _detachDevice this device
  | waitAtPort name promise => waitForDeviceAtPort this name promise
  | waitByType deviceType promise => waitForDeviceByType this deviceType promise
  end.

Fixpoint run (this : State) (ns : list Call) : State * list Event :=
  match ns with
  | [] => (this, [])
  | n :: ns =>
      let '(this, trace) := handle this n in
      let '(this, trace') := run this ns in
      (this, trace ++ trace')
  end.

(** The getter [ports]: [Object.keys(this._portMap)]. *)
Definition ports (this : State) : list string := Object_keys (_portMap this).

(** Every device of the table sits under its own port id. *)
Definition keyed (this : State) : Prop :=
  forall (p : Z) (device : Device),
    _attachedDevices this !! p = Some device -> portId device = p.

End Hub.

(* ===================================================================== *)
(** ** Readings of a trace *)
(* ===================================================================== *)

(** The events of a trace that went through [this.emit]. *)
Definition emitted (trace : list Event) : list (string * Device) :=
  omap (fun e => match e with emit name d => Some (name, d) | _ => None end) trace.

(** The promises settled in a trace. *)
Definition settled (trace : list Event) : list nat :=
  omap (fun e => match e with
                 | resolve p _ | reject p _ => Some p
                 | _ => None
                 end) trace.

(** The waiters called in a trace, in the order of the calls. *)
Definition invoked (trace : list Event) : list nat :=
  omap (fun e => match e with invoke p _ => Some p | _ => None end) trace.

(** The calls of a sequence of waiters on a device, one after the other:
    each call is recorded, followed by what the callback did. *)
Definition calls (effects : Callback -> Device -> list Event) (device : Device)
    (callbacks : list Callback) : list Event :=
  callbacks ≫= fun cb => invoke (promise cb) device :: effects cb device.

(** The promises of the waits among a sequence of calls, in the order of
    the calls. *)
Definition waits (ns : list Call) : list nat :=
  omap (fun n => match n with
                 | waitAtPort _ p | waitByType _ p => Some p
                 | _ => None
                 end) ns.

(** The promises of a list of pending waiters. *)
Definition promises (callbacks : list Callback) : list nat :=
  promise <$> callbacks.

(** The names of the events of a decoder's output. *)
Definition event_name (e : Emission) : string :=
  match e with notify name _ | emitGlobal name _ => name end.

(** The value ranges of the payloads of the colour sensor. *)
Definition in_range (p : Payload) : Prop :=
  match p with
  | Color color => 0 <= color <= 10
  | Reflect (Some reflect) => 0 <= reflect <= 255
  | Rgb red green blue =>
      0 <= red <= 16383 /\ 0 <= green <= 16383 /\ 0 <= blue <= 16383
  | _ => True
  end.

(* ===================================================================== *)
(** ** Concrete hubs, devices and buffers

    Used to run the definitions on explicit inputs. *)
(* ===================================================================== *)

Module Sample.

Import Consts.

(** Codes for the hub types, as an instance of [Consts.HubType]. *)
Definition HubType (n : HubTypeName) : Z :=
  match n with
  | UNKNOWN => 0
  | REMOTE_CONTROL => 4
  | DUPLO_TRAIN_BASE => 5
  | TECHNIC_MEDIUM_HUB => 6
  end.

(** A decoder in a given mode on a hub of a given type. *)
Definition decoder (mode : Z) (hubType : Z) (wedo2 : bool) : DeviceState :=
  {| _mode := Some mode; isWeDo2SmartHub := wedo2; hub_type := hubType;
     hub_autoParse := false |}.

(** A base class that decodes nothing. *)
Definition silent (this : DeviceState) (message : Buffer)
  : Completion (list Emission) := Normal [].

Definition header : Buffer := [x0a; x00; x45; x00].

(** The colour byte 7, and the sentinel 11. *)
Definition color_7 : Buffer := header ++ [x07].
Definition color_11 : Buffer := header ++ [x0b].

(** The channels 400, 800 and 1200, little-endian. *)
Definition rgb_400_800_1200 : Buffer :=
  header ++ [x90; x01; x20; x03; xb0; x04].

(** The raw voltage 3893 at offset 4; the bytes at offset 2 read 40. *)
Definition raw_3893 : Buffer := [x06; x00; x28; x00; x35; x0f].

(** A buffer cut off after the header and one byte. *)
Definition truncated : Buffer := header ++ [x90].

(** Codes for the device types, as an instance of [Consts.DeviceType]. *)
Definition DeviceType (n : DeviceTypeName) : Z :=
  match n with
  | SIMPLE_MEDIUM_LINEAR_MOTOR => 1
  | TRAIN_MOTOR => 2
  | LIGHT => 8
  | VOLTAGE_SENSOR => 20
  | CURRENT_SENSOR => 21
  | HUB_LED => 23
  | TILT_SENSOR => 34
  | MOTION_SENSOR => 35
  | COLOR_DISTANCE_SENSOR => 37
  | MEDIUM_LINEAR_MOTOR => 38
  | MOVE_HUB_MEDIUM_LINEAR_MOTOR => 39
  | MOVE_HUB_TILT_SENSOR => 40
  | DUPLO_TRAIN_BASE_MOTOR => 41
  | DUPLO_TRAIN_BASE_SPEAKER => 42
  | DUPLO_TRAIN_BASE_COLOR_SENSOR => 43
  | DUPLO_TRAIN_BASE_SPEEDOMETER => 44
  | TECHNIC_LARGE_LINEAR_MOTOR => 46
  | TECHNIC_XLARGE_LINEAR_MOTOR => 47
  | REMOTE_CONTROL_BUTTON => 55
  | TECHNIC_MEDIUM_HUB_ACCELEROMETER => 57
  | TECHNIC_MEDIUM_HUB_GYRO_SENSOR => 58
  | TECHNIC_MEDIUM_HUB_TILT_SENSOR => 59
  end.

(** Decoders that pass on no mode map and the type 0. *)
Definition super_args (c : Class.t) : option (gmap string Z) * Z := (None, 0).

(** A hub model with two ports. *)
Definition portMap : Table := [("A", 0); ("B", 1)].

(** A train motor on port A, a light and a second train motor on port B. *)
Definition motor_A : Device :=
  {| class := Class.TrainMotor; portId := 0; modeMap := None; type := 2 |}.
Definition light_B : Device :=
  {| class := Class.Light; portId := 1; modeMap := None; type := 8 |}.
Definition motor_B : Device :=
  {| class := Class.TrainMotor; portId := 1; modeMap := None; type := 2 |}.

(** The two waits of the examples, both for port B, in the order in which
    they are registered. *)
Definition first_wait : Callback := {| promise := 1; waiter := AtPort "B" |}.
Definition second_wait : Callback := {| promise := 2; waiter := AtPort "B" |}.

(** A [BaseHub] and a [Hub] of that model on which
    [waitForDeviceAtPort("B")] was called twice. *)
Definition basehub : BaseHub.State := BaseHub.create portMap 0.
Definition basehub_waiting : BaseHub.State :=
  (BaseHub.waitForDeviceAtPort (BaseHub.waitForDeviceAtPort basehub "B" 1).1 "B" 2).1.

Definition hub : Hub.State := Hub.create portMap 0.
Definition hub_waiting : Hub.State :=
  (Hub.waitForDeviceAtPort (Hub.waitForDeviceAtPort hub "B" 1).1 "B" 2).1.

End Sample.

(* ===================================================================== *)
(** * Properties *)
(* ===================================================================== *)

(* ===================================================================== *)
(** ** Buffers *)
(* ===================================================================== *)

Section BufferFacts.

Implicit Types (message : Buffer) (offset : nat).

Lemma byte_val_range (b : byte) : 0 <= byte_val b < 256.
Proof.
  unfold byte_val. pose proof (Byte.to_N_bounded b) as Hb.
  split; [apply N2Z.is_nonneg |].
  change 256 with (Z.succ (Z.of_N 255)). apply Zle_lt_succ, N2Z.inj_le, Hb.
Qed.

Lemma index_inside message offset :
  (offset < length message)%nat ->
  exists b, message !! offset = Some b /\ index message offset = Some (byte_val b).
Proof.
  intros Hlt. destruct (lookup_lt_is_Some_2 message offset Hlt) as [b Hb].
  exists b. split; [done |]. unfold index. by rewrite Hb.
Qed.

Lemma index_outside message offset :
  (length message <= offset)%nat -> index message offset = None.
Proof.
  intros Hle. unfold index. by rewrite (lookup_ge_None_2 message offset Hle).
Qed.

Lemma index_lookup message offset b :
  message !! offset = Some b -> index message offset = Some (byte_val b).
Proof. intros Hb. unfold index. by rewrite Hb. Qed.

Lemma readUInt16LE_lookup message offset lo hi :
  message !! offset = Some lo -> message !! S offset = Some hi ->
  readUInt16LE message offset = Normal (byte_val lo + byte_val hi * 2 ^ 8).
Proof.
  intros Hlo Hhi. unfold readUInt16LE.
  by rewrite (index_lookup _ _ _ Hlo), (index_lookup _ _ _ Hhi).
Qed.

Lemma readUInt16LE_inside message offset :
  (S offset < length message)%nat -> returns (readUInt16LE message offset).
Proof.
  intros Hlt.
  destruct (index_inside message offset) as (lo & Hlo & _); [lia |].
  destruct (index_inside message (S offset)) as (hi & Hhi & _); [lia |].
  by rewrite (readUInt16LE_lookup _ _ _ _ Hlo Hhi).
Qed.

Lemma readUInt16LE_outside message offset :
  (length message <= S offset)%nat ->
  readUInt16LE message offset = Throw RangeError.
Proof.
  intros Hle. unfold readUInt16LE. rewrite (index_outside _ _ Hle).
  by destruct (index message offset).
Qed.

Lemma readUInt16LE_throws message offset e :
  readUInt16LE message offset = Throw e -> e = RangeError.
Proof.
  unfold readUInt16LE.
  destruct (index message offset), (index message (S offset)); congruence.
Qed.

Lemma readInt16LE_inside message offset :
  (S offset < length message)%nat -> returns (readInt16LE message offset).
Proof.
  intros Hlt. unfold readInt16LE.
  destruct (index_inside message offset) as (lo & _ & ->); [lia |].
  by destruct (index_inside message (S offset)) as (hi & _ & ->); [lia |].
Qed.

Lemma readInt16LE_outside message offset :
  (length message <= S offset)%nat ->
  readInt16LE message offset = Throw RangeError.
Proof.
  intros Hle. unfold readInt16LE. rewrite (index_outside _ _ Hle).
  by destruct (index message offset).
Qed.

(** A 16-bit read yields a 16-bit value. *)
Lemma readUInt16LE_range message offset v :
  readUInt16LE message offset = Normal v -> 0 <= v < 2 ^ 16.
Proof.
  unfold readUInt16LE, index.
  destruct (message !! offset) as [lo|]; [|done].
  destruct (message !! S offset) as [hi|]; [|done].
  simpl. intros [= <-].
  pose proof (byte_val_range lo). pose proof (byte_val_range hi). lia.
Qed.

End BufferFacts.

(* ===================================================================== *)
(** ** The decoders *)
(* ===================================================================== *)

Section ColorSensor.

Import DuploTrainBaseColorSensor.

Variable super_receive : DeviceState -> Buffer -> Completion (list Emission).

Implicit Types (this : DeviceState) (message : Buffer).

Lemma color_sensor_mode this message mode :
  hub_autoParse this = false -> _mode this = Some mode ->
  receive super_receive this message =
    if mode =? Mode.COLOR then
      match index message 4 with
      | Some color =>
          if color <=? 10 then Normal [notify "color" (Color color)] else Normal []
      | None => Normal []
      end
    else if mode =? Mode.REFLECTIVITY then
      Normal [notify "reflect" (Reflect (index message 4))]
    else if mode =? Mode.RGB then
      r ← readUInt16LE message 4;
      g ← readUInt16LE message 6;
      b ← readUInt16LE message 8;
      Normal [notify "rgb" (Rgb (r / 4) (g / 4) (b / 4))]
    else Normal [].
Proof. intros Hauto Hmode. unfold receive. by rewrite Hauto, Hmode. Qed.

(** C5. In COLOR mode the byte at offset 4 is emitted as the colour when
    it is at most 10, and nothing is emitted when it is greater. *)
Theorem color_mode_emits_up_to_10 this message (b : byte) :
  hub_autoParse this = false ->
  _mode this = Some Mode.COLOR ->
  message !! 4%nat = Some b ->
  (byte_val b <= 10 ->
     receive super_receive this message
     = Normal [notify "color" (Color (byte_val b))])
  /\ (10 < byte_val b -> receive super_receive this message = Normal []).
Proof.
  intros Hauto Hmode Hb.
  rewrite (color_sensor_mode _ _ _ Hauto Hmode), (index_lookup _ _ _ Hb).
  change (Mode.COLOR =? Mode.COLOR) with true. cbv iota.
  split; intros Hle.
  - by rewrite (proj2 (Z.leb_le _ _) Hle).
  - by rewrite (proj2 (Z.leb_gt _ _) Hle).
Qed.

(** In COLOR mode a buffer too short to hold the colour byte emits
    nothing. *)
Lemma color_mode_short_buffer this message :
  hub_autoParse this = false ->
  _mode this = Some Mode.COLOR ->
  (length message <= 4)%nat ->
  receive super_receive this message = Normal [].
Proof.
  intros Hauto Hmode Hlen.
  by rewrite (color_sensor_mode _ _ _ Hauto Hmode), (index_outside _ _ Hlen).
Qed.

(** C6. In RGB mode the event carries the three little-endian 16-bit
    values at offsets 4, 6 and 8, each divided by 4 (rounded down). *)
Theorem rgb_mode_divides_by_4 this message (b4 b5 b6 b7 b8 b9 : byte) :
  hub_autoParse this = false ->
  _mode this = Some Mode.RGB ->
  message !! 4%nat = Some b4 -> message !! 5%nat = Some b5 ->
  message !! 6%nat = Some b6 -> message !! 7%nat = Some b7 ->
  message !! 8%nat = Some b8 -> message !! 9%nat = Some b9 ->
  receive super_receive this message
  = Normal [notify "rgb"
              (Rgb ((byte_val b4 + byte_val b5 * 2 ^ 8) / 4)
                   ((byte_val b6 + byte_val b7 * 2 ^ 8) / 4)
                   ((byte_val b8 + byte_val b9 * 2 ^ 8) / 4))].
Proof.
  intros Hauto Hmode H4 H5 H6 H7 H8 H9.
  rewrite (color_sensor_mode _ _ _ Hauto Hmode).
  change (Mode.RGB =? Mode.COLOR) with false.
  change (Mode.RGB =? Mode.REFLECTIVITY) with false.
  change (Mode.RGB =? Mode.RGB) with true. cbv iota.
  rewrite (readUInt16LE_lookup _ _ _ _ H4 H5).
  rewrite (readUInt16LE_lookup _ _ _ _ H6 H7).
  by rewrite (readUInt16LE_lookup _ _ _ _ H8 H9).
Qed.

(** In RGB mode a buffer of fewer than 10 bytes makes one of the three
    reads fail, and the failure reaches the caller. *)
Lemma rgb_mode_short_buffer this message :
  hub_autoParse this = false ->
  _mode this = Some Mode.RGB ->
  (length message < 10)%nat ->
  receive super_receive this message = Throw RangeError.
Proof.
  intros Hauto Hmode Hlen.
  rewrite (color_sensor_mode _ _ _ Hauto Hmode).
  change (Mode.RGB =? Mode.COLOR) with false.
  change (Mode.RGB =? Mode.REFLECTIVITY) with false.
  change (Mode.RGB =? Mode.RGB) with true. cbv iota.
  rewrite (readUInt16LE_outside message 8) by lia.
  destruct (readUInt16LE message 4) as [r|e] eqn:Hr;
    [| by rewrite (readUInt16LE_throws _ _ _ Hr)].
  destruct (readUInt16LE message 6) as [g|e] eqn:Hg;
    [| by rewrite (readUInt16LE_throws _ _ _ Hg)].
  done.
Qed.

Lemma color_sensor_returns this message :
  hub_autoParse this = false ->
  _mode this <> Some Mode.RGB \/ (10 <= length message)%nat ->
  returns (receive super_receive this message).
Proof.
  intros Hauto Hcase. unfold receive. rewrite Hauto.
  destruct (_mode this) as [mode|]; [|done].
  destruct (mode =? Mode.COLOR) eqn:Hc.
  { destruct (index message 4) as [color|]; [|done].
    by destruct (color <=? 10). }
  destruct (mode =? Mode.REFLECTIVITY); [done |].
  destruct (mode =? Mode.RGB) eqn:Hrgb; [|done].
  apply Z.eqb_eq in Hrgb as ->.
  destruct Hcase as [Hne | Hlen]; [done |].
  pose proof (readUInt16LE_inside message 4 ltac:(lia)) as H4.
  pose proof (readUInt16LE_inside message 6 ltac:(lia)) as H6.
  pose proof (readUInt16LE_inside message 8 ltac:(lia)) as H8.
  destruct (readUInt16LE message 4); [|done].
  destruct (readUInt16LE message 6); [|done].
  by destruct (readUInt16LE message 8).
Qed.

Lemma color_sensor_unrecognized this message :
  hub_autoParse this = false ->
  _mode this <> Some Mode.COLOR ->
  _mode this <> Some Mode.REFLECTIVITY ->
  _mode this <> Some Mode.RGB ->
  receive super_receive this message = Normal [].
Proof.
  intros Hauto Hc Hr Hrgb. unfold receive. rewrite Hauto.
  destruct (_mode this) as [mode|]; [|done].
  destruct (Z.eqb_spec mode Mode.COLOR); [congruence |].
  destruct (Z.eqb_spec mode Mode.REFLECTIVITY); [congruence |].
  destruct (Z.eqb_spec mode Mode.RGB); [congruence | done].
Qed.

End ColorSensor.

Section Voltage.

Import Consts VoltageSensor.

Variable HubType : HubTypeName -> Z.

Implicit Types (this : DeviceState) (message : Buffer).

(** The codes of an enumeration are pairwise different. *)
Hypothesis HubType_inj : Inj (=) (=) HubType.

Lemma MaxVoltageValue_UNKNOWN :
  MaxVoltageValue HubType !! HubType UNKNOWN = Some 9.615%float.
Proof.
  unfold MaxVoltageValue.
  rewrite !lookup_insert_ne by (intros Heq; apply HubType_inj in Heq; discriminate Heq).
  apply lookup_insert_eq.
Qed.

Lemma MaxVoltageRaw_UNKNOWN :
  MaxVoltageRaw HubType !! HubType UNKNOWN = Some 3893%float.
Proof.
  unfold MaxVoltageRaw.
  rewrite !lookup_insert_ne by (intros Heq; apply HubType_inj in Heq; discriminate Heq).
  apply lookup_insert_eq.
Qed.

(** The hub types that have a row in each table. *)
Lemma MaxVoltageValue_rows (hubType : Z) :
  is_Some (MaxVoltageValue HubType !! hubType) <->
  hubType ∈ HubType <$> [UNKNOWN; DUPLO_TRAIN_BASE; REMOTE_CONTROL].
Proof.
  unfold MaxVoltageValue.
  rewrite !lookup_insert_is_Some', lookup_empty, is_Some_alt.
  rewrite !fmap_cons, !elem_of_cons, fmap_nil, elem_of_nil.
  intuition congruence.
Qed.

Lemma MaxVoltageRaw_rows (hubType : Z) :
  is_Some (MaxVoltageRaw HubType !! hubType) <->
  hubType ∈ HubType <$> [UNKNOWN; DUPLO_TRAIN_BASE; REMOTE_CONTROL; TECHNIC_MEDIUM_HUB].
Proof.
  unfold MaxVoltageRaw.
  rewrite !lookup_insert_is_Some', lookup_empty, is_Some_alt.
  rewrite !fmap_cons, !elem_of_cons, fmap_nil, elem_of_nil.
  intuition congruence.
Qed.

(** The lookup of a table always yields a number: the row of the hub type,
    or else the UNKNOWN row. *)
Lemma lookup_or_unknown_row (table : gmap Z float) (hubType : Z) (v : float) :
  table !! hubType = Some v -> lookup_or_unknown HubType table hubType = v.
Proof. intros Hrow. unfold lookup_or_unknown. by rewrite Hrow. Qed.

Lemma lookup_or_unknown_fallback (table : gmap Z float) (hubType : Z) (v : float) :
  table !! hubType = None -> table !! HubType UNKNOWN = Some v ->
  lookup_or_unknown HubType table hubType = v.
Proof. intros Hrow Hunk. unfold lookup_or_unknown. by rewrite Hrow, Hunk. Qed.

Lemma voltage_mode this message :
  _mode this = Some Mode.VOLTAGE -> isWeDo2SmartHub this = false ->
  receive HubType this message =
    raw ← readUInt16LE message 4;
    Normal [emitGlobal "voltage"
              (Voltage (number raw
                        * lookup_or_unknown HubType (MaxVoltageValue HubType) (hub_type this)
                        / lookup_or_unknown HubType (MaxVoltageRaw HubType) (hub_type this)))].
Proof. intros Hmode Hwedo. unfold receive. by rewrite Hmode, Hwedo. Qed.

Lemma voltage_mode_wedo2 this message :
  _mode this = Some Mode.VOLTAGE -> isWeDo2SmartHub this = true ->
  receive HubType this message =
    raw ← readInt16LE message 2;
    Normal [emitGlobal "voltage" (Voltage (number raw / 40))].
Proof. intros Hmode Hwedo. unfold receive. by rewrite Hmode, Hwedo. Qed.

(** C4 (amended). On a hub that is not a WeDo 2.0 smart hub and whose type
    has no row in either scaling table, the voltage sensor in VOLTAGE mode
    takes the UNKNOWN row of both tables: the voltage is the little-endian
    unsigned 16-bit value at offset 4, times 9.615, divided by 3893. *)
Theorem voltage_falls_back_to_unknown_row this message (lo hi : byte) :
  _mode this = Some Mode.VOLTAGE ->
  isWeDo2SmartHub this = false ->
  MaxVoltageValue HubType !! hub_type this = None ->
  MaxVoltageRaw HubType !! hub_type this = None ->
  message !! 4%nat = Some lo -> message !! 5%nat = Some hi ->
  receive HubType this message
  = Normal [emitGlobal "voltage"
              (Voltage (number (byte_val lo + byte_val hi * 2 ^ 8) * 9.615 / 3893))].
Proof.
  intros Hmode Hwedo Hvalue Hraw Hlo Hhi.
  rewrite (voltage_mode _ _ Hmode Hwedo).
  rewrite (lookup_or_unknown_fallback _ _ _ Hvalue MaxVoltageValue_UNKNOWN).
  rewrite (lookup_or_unknown_fallback _ _ _ Hraw MaxVoltageRaw_UNKNOWN).
  by rewrite (readUInt16LE_lookup _ _ _ _ Hlo Hhi).
Qed.

(** The two tables fall back independently: the Technic medium hub has a
    row of its own in the raw table only. *)
Lemma voltage_technic_medium_hub this message (lo hi : byte) :
  _mode this = Some Mode.VOLTAGE ->
  isWeDo2SmartHub this = false ->
  hub_type this = HubType TECHNIC_MEDIUM_HUB ->
  message !! 4%nat = Some lo -> message !! 5%nat = Some hi ->
  receive HubType this message
  = Normal [emitGlobal "voltage"
              (Voltage (number (byte_val lo + byte_val hi * 2 ^ 8) * 9.615 / 4095))].
Proof.
  intros Hmode Hwedo Htype Hlo Hhi.
  rewrite (voltage_mode _ _ Hmode Hwedo), Htype.
  rewrite (lookup_or_unknown_fallback _ _ 9.615%float).
  - rewrite (lookup_or_unknown_row _ _ 4095%float).
    + by rewrite (readUInt16LE_lookup _ _ _ _ Hlo Hhi).
    + apply lookup_insert_eq.
  - apply eq_None_not_Some. rewrite MaxVoltageValue_rows.
    rewrite !fmap_cons, !elem_of_cons, fmap_nil, elem_of_nil.
    intros [?%HubType_inj | [?%HubType_inj | [?%HubType_inj | []]]]; done.
  - apply MaxVoltageValue_UNKNOWN.
Qed.

End Voltage.

Section VoltageTolerance.

Import Consts VoltageSensor.

Variable HubType : HubTypeName -> Z.

Implicit Types (this : DeviceState) (message : Buffer).

Lemma voltage_unrecognized this message :
  _mode this <> Some Mode.VOLTAGE -> receive HubType this message = Normal [].
Proof.
  intros Hmode. unfold receive.
  destruct (_mode this) as [mode|]; [|done].
  by destruct (Z.eqb_spec mode Mode.VOLTAGE); [congruence |].
Qed.

Lemma voltage_returns this message :
  (6 <= length message)%nat -> returns (receive HubType this message).
Proof.
  intros Hlen. unfold receive.
  destruct (_mode this) as [mode|]; [|done].
  destruct (mode =? Mode.VOLTAGE); [|done].
  destruct (isWeDo2SmartHub this).
  - pose proof (readInt16LE_inside message 2 ltac:(lia)) as Hread.
    by destruct (readInt16LE message 2).
  - pose proof (readUInt16LE_inside message 4 ltac:(lia)) as Hread.
    by destruct (readUInt16LE message 4).
Qed.

Lemma voltage_short_buffer this message :
  _mode this = Some Mode.VOLTAGE ->
  (if isWeDo2SmartHub this then length message < 4 else length message < 6)%nat ->
  receive HubType this message = Throw RangeError.
Proof.
  intros Hmode Hlen. unfold receive. rewrite Hmode.
  change (Mode.VOLTAGE =? Mode.VOLTAGE) with true. cbv iota.
  destruct (isWeDo2SmartHub this).
  - by rewrite readInt16LE_outside by lia.
  - by rewrite readUInt16LE_outside by lia.
Qed.

Lemma voltage_returns_in_mode this message :
  _mode this = Some Mode.VOLTAGE ->
  (if isWeDo2SmartHub this then 4 <= length message else 6 <= length message)%nat ->
  returns (receive HubType this message).
Proof.
  intros Hmode Hlen. unfold receive. rewrite Hmode.
  change (Mode.VOLTAGE =? Mode.VOLTAGE) with true. cbv iota.
  destruct (isWeDo2SmartHub this).
  - pose proof (readInt16LE_inside message 2 ltac:(lia)) as Hread.
    by destruct (readInt16LE message 2).
  - pose proof (readUInt16LE_inside message 4 ltac:(lia)) as Hread.
    by destruct (readUInt16LE message 4).
Qed.

End VoltageTolerance.

Section RemoteButton.

Import RemoteControlButton.

Implicit Types (this : DeviceState) (message : Buffer).

Lemma button_unrecognized this message :
  _mode this <> Some Mode.BUTTON_EVENTS -> receive this message = Normal [].
Proof.
  intros Hmode. unfold receive.
  destruct (_mode this) as [mode|]; [|done].
  by destruct (Z.eqb_spec mode Mode.BUTTON_EVENTS); [congruence |].
Qed.

Lemma button_returns this message : returns (receive this message).
Proof.
  unfold receive. destruct (_mode this) as [mode|]; [|done].
  by destruct (mode =? Mode.BUTTON_EVENTS).
Qed.

End RemoteButton.

Section Tolerance.

Import Consts.

Variable super_receive : DeviceState -> Buffer -> Completion (list Emission).
Variable HubType : HubTypeName -> Z.

(** C3 (amended). For the three decoders and every buffer (the colour
    sensor outside auto-parse mode; the other two never look at that
    switch).  In a mode the decoder does not recognize [receive] does
    nothing and emits nothing.  [receive] returns normally whenever the
    buffer covers the offsets the active mode reads: in every mode but RGB
    for the colour sensor and always for the remote button, whatever the
    length; in RGB mode from 10 bytes on; in VOLTAGE mode from 6 bytes on,
    from 4 on a WeDo 2.0 smart hub.  On a shorter buffer the single-byte
    modes still return (COLOR emits nothing; REFLECTIVITY and the remote
    button emit an event that carries [undefined]), while the 16-bit reads
    of the RGB and VOLTAGE modes raise a [RangeError] to the caller. *)
Theorem receive_tolerance (this : DeviceState) (message : Buffer) :
  (* the colour sensor *)
  (hub_autoParse this = false ->
   (_mode this <> Some DuploTrainBaseColorSensor.Mode.COLOR ->
    _mode this <> Some DuploTrainBaseColorSensor.Mode.REFLECTIVITY ->
    _mode this <> Some DuploTrainBaseColorSensor.Mode.RGB ->
    DuploTrainBaseColorSensor.receive super_receive this message = Normal [])
   /\ (_mode this <> Some DuploTrainBaseColorSensor.Mode.RGB ->
       returns (DuploTrainBaseColorSensor.receive super_receive this message))
   /\ (_mode this = Some DuploTrainBaseColorSensor.Mode.RGB ->
       (10 <= length message)%nat ->
       returns (DuploTrainBaseColorSensor.receive super_receive this message))
   /\ (_mode this = Some DuploTrainBaseColorSensor.Mode.RGB ->
       (length message < 10)%nat ->
       DuploTrainBaseColorSensor.receive super_receive this message
       = Throw RangeError)
   /\ (_mode this = Some DuploTrainBaseColorSensor.Mode.COLOR ->
       (length message <= 4)%nat ->
       DuploTrainBaseColorSensor.receive super_receive this message = Normal [])
   /\ (_mode this = Some DuploTrainBaseColorSensor.Mode.REFLECTIVITY ->
       (length message <= 4)%nat ->
       DuploTrainBaseColorSensor.receive super_receive this message
       = Normal [notify "reflect" (Reflect None)]))
  (* the voltage sensor *)
  /\ ((_mode this <> Some VoltageSensor.Mode.VOLTAGE ->
       VoltageSensor.receive HubType this message = Normal [])
      /\ (_mode this = Some VoltageSensor.Mode.VOLTAGE ->
          (if isWeDo2SmartHub this
           then 4 <= length message else 6 <= length message)%nat ->
          returns (VoltageSensor.receive HubType this message))
      /\ (_mode this = Some VoltageSensor.Mode.VOLTAGE ->
          (if isWeDo2SmartHub this
           then length message < 4 else length message < 6)%nat ->
          VoltageSensor.receive HubType this message = Throw RangeError))
  (* the remote control button *)
  /\ ((_mode this <> Some RemoteControlButton.Mode.BUTTON_EVENTS ->
       RemoteControlButton.receive this message = Normal [])
      /\ returns (RemoteControlButton.receive this message)
      /\ (_mode this = Some RemoteControlButton.Mode.BUTTON_EVENTS ->
          (length message <= 4)%nat ->
          RemoteControlButton.receive this message
          = Normal [emitGlobal "remoteButton" (Button None)])).
Proof.
  split; [| split].
  - intros Hauto. split; [| split; [| split; [| split; [| split]]]].
    + by apply color_sensor_unrecognized.
    + intros Hmode. apply color_sensor_returns; auto.
    + intros _ Hlen. apply color_sensor_returns; auto.
    + intros Hmode Hlen. by apply rgb_mode_short_buffer.
    + intros Hmode Hlen. by apply color_mode_short_buffer.
    + intros Hmode Hlen.
      rewrite (color_sensor_mode _ _ _ _ Hauto Hmode).
      by rewrite (index_outside _ _ Hlen).
  - split; [| split].
    + apply voltage_unrecognized.
    + apply voltage_returns_in_mode.
    + apply voltage_short_buffer.
  - split; [| split].
    + apply button_unrecognized.
    + apply button_returns.
    + intros Hmode Hlen. unfold RemoteControlButton.receive. rewrite Hmode.
      by rewrite (index_outside _ _ Hlen).
Qed.

End Tolerance.

(* ===================================================================== *)
(** ** The decoders on explicit buffers *)
(* ===================================================================== *)

Section DecoderExamples.

Import Sample.

(** A truncated buffer reaches the caller as an exception in the modes that
    read 16-bit fields. *)
Lemma receive_throws_on_truncated_buffer :
  DuploTrainBaseColorSensor.receive silent
    (decoder DuploTrainBaseColorSensor.Mode.RGB 0 false) truncated
  = Throw RangeError
  /\ VoltageSensor.receive HubType
       (decoder VoltageSensor.Mode.VOLTAGE 0 false) truncated
     = Throw RangeError
  /\ DuploTrainBaseColorSensor.receive silent
       (decoder DuploTrainBaseColorSensor.Mode.REFLECTIVITY 0 false) header
     = Normal [notify "reflect" (Reflect None)].
Proof. repeat split. Qed.

Lemma receive_tolerance_witness :
  DuploTrainBaseColorSensor.receive silent (decoder 7 0 false) truncated = Normal []
  /\ returns (DuploTrainBaseColorSensor.receive silent (decoder 2 0 false) truncated)
  /\ returns (VoltageSensor.receive HubType (decoder 0 0 false) raw_3893).
Proof.
  pose proof (receive_tolerance silent HubType (decoder 7 0 false) truncated)
    as [Hcolor _].
  pose proof (receive_tolerance silent HubType (decoder 2 0 false) truncated)
    as [Hreflect _].
  pose proof (receive_tolerance silent HubType (decoder 0 0 false) raw_3893)
    as (_ & (_ & Hvoltage & _) & _).
  split; [| split].
  - apply (proj1 (Hcolor eq_refl)); discriminate.
  - apply (proj1 (proj2 (Hreflect eq_refl))). discriminate.
  - apply Hvoltage; [reflexivity | simpl; lia].
Defined.

Lemma color_byte_7 :
  DuploTrainBaseColorSensor.receive silent (decoder 0 0 false) color_7
  = Normal [notify "color" (Color 7)].
Proof. reflexivity. Qed.

Lemma color_byte_11 :
  DuploTrainBaseColorSensor.receive silent (decoder 0 0 false) color_11
  = Normal [].
Proof. reflexivity. Qed.

Lemma color_mode_emits_up_to_10_witness :
  DuploTrainBaseColorSensor.receive silent (decoder 0 0 false) color_7
  = Normal [notify "color" (Color 7)]
  /\ DuploTrainBaseColorSensor.receive silent (decoder 0 0 false) color_11
     = Normal [].
Proof.
  split.
  - apply (color_mode_emits_up_to_10 silent (decoder 0 0 false) color_7 x07);
      [reflexivity | reflexivity | reflexivity | vm_compute; discriminate].
  - apply (color_mode_emits_up_to_10 silent (decoder 0 0 false) color_11 x0b);
      [reflexivity | reflexivity | reflexivity | reflexivity].
Defined.

Lemma rgb_mode_divides_by_4_witness :
  DuploTrainBaseColorSensor.receive silent (decoder 3 0 false) rgb_400_800_1200
  = Normal [notify "rgb" (Rgb 100 200 300)].
Proof.
  apply (rgb_mode_divides_by_4 silent (decoder 3 0 false) rgb_400_800_1200
           x90 x01 x20 x03 xb0 x04); reflexivity.
Defined.

Lemma Sample_HubType_inj : Inj (=) (=) HubType.
Proof. intros [] []; simpl; intros Heq; first [reflexivity | discriminate Heq]. Defined.

(** A hub type without a row (code 3), raw value 3893: the voltage is
    3893 * 9.615 / 3893. *)
Lemma voltage_falls_back_to_unknown_row_witness :
  VoltageSensor.receive HubType (decoder 0 3 false) raw_3893
  = Normal [emitGlobal "voltage" (Voltage (number 3893 * 9.615 / 3893))].
Proof.
  apply (voltage_falls_back_to_unknown_row HubType Sample_HubType_inj
           (decoder 0 3 false) raw_3893 x35 x0f); reflexivity.
Defined.

(** On a WeDo 2.0 smart hub, whose type (code 1) has no row in either
    table, the voltage is the signed 16-bit value at offset 2 divided by
    40, not the raw value at offset 4 scaled by the UNKNOWN row. *)
Lemma voltage_wedo2_not_unknown_row :
  VoltageSensor.MaxVoltageValue HubType !! 1 = None
  /\ VoltageSensor.MaxVoltageRaw HubType !! 1 = None
  /\ readUInt16LE raw_3893 4 = Normal 3893
  /\ VoltageSensor.receive HubType (decoder 0 1 true) raw_3893
     = Normal [emitGlobal "voltage" (Voltage 1)]
  /\ VoltageSensor.receive HubType (decoder 0 1 true) raw_3893
     <> Normal [emitGlobal "voltage" (Voltage (number 3893 * 9.615 / 3893))].
Proof.
  repeat split.
  intros Heq.
  apply (f_equal (fun c => match c with
                           | Normal [emitGlobal _ (Voltage v)] => PrimFloat.eqb v 1
                           | _ => false
                           end)) in Heq.
  vm_compute in Heq. discriminate Heq.
Qed.

End DecoderExamples.

(* ===================================================================== *)
(** ** Tables *)
(* ===================================================================== *)

Section Tables.

Implicit Types (o : Table) (key : string).

Lemma property_None o key :
  property o key = None <-> key ∉ Object_keys o.
Proof.
  unfold Object_keys. induction o as [| [k v] o IH]; simpl.
  - split; [intros _; apply not_elem_of_nil | done].
  - rewrite not_elem_of_cons. destruct (decide (k = key)) as [-> | Hne].
    + split; [done | intros [[] _]; done].
    + rewrite IH. split; [intros Hk; split; [congruence | done] | intros [_ Hk]; done].
Qed.

Lemma property_is_Some o key :
  is_Some (property o key) <-> key ∈ Object_keys o.
Proof.
  rewrite <- not_eq_None_Some, property_None.
  split; [apply dec_stable | auto].
Qed.

Lemma property_elem_of o key v :
  property o key = Some v -> (key, v) ∈ o.
Proof.
  induction o as [| [k w] o IH]; simpl; [done |].
  destruct (decide (k = key)) as [-> | Hne].
  - intros [= ->]. apply list_elem_of_here.
  - intros Hv. apply list_elem_of_further, IH, Hv.
Qed.

(** The lookup of an arbitrary name. *)
Lemma member_own o key (n : Z) :
  property o key = Some n -> member o key = Some (Own n).
Proof. intros Hown. unfold member. by rewrite Hown. Qed.

Lemma member_inherited o key :
  key ∉ Object_keys o -> key ∈ Object_prototype ->
  member o key = Some Inherited.
Proof.
  intros Hkey%property_None Hproto. unfold member.
  by rewrite Hkey, decide_True.
Qed.

Lemma member_None o key :
  member o key = None <-> (key ∉ Object_keys o) /\ (key ∉ Object_prototype).
Proof.
  rewrite <- property_None. unfold member.
  destruct (property o key) as [n |]; [split; [done | by intros [? _]] |].
  case_decide; [split; [done | by intros [_ ?]] | done].
Qed.

(** Object literals with computed keys. *)
Lemma object_literal_lookup_acc {V} (entries : list (Z * V)) (acc : gmap Z V) (k : Z) :
  k ∉ entries.*1 ->
  foldl (fun m kv => <[kv.1 := kv.2]> m) acc entries !! k = acc !! k.
Proof.
  revert acc. induction entries as [| [k' v] entries IH]; intros acc; simpl; [done |].
  rewrite not_elem_of_cons. intros [Hne Hk].
  rewrite IH by done. by apply lookup_insert_ne.
Qed.

Lemma object_literal_None {V} (entries : list (Z * V)) (k : Z) :
  k ∉ entries.*1 -> object_literal entries !! k = None.
Proof.
  intros Hk. unfold object_literal.
  by rewrite object_literal_lookup_acc, lookup_empty.
Qed.

Lemma object_literal_Some_acc {V} (entries : list (Z * V)) (acc : gmap Z V) (k : Z) :
  k ∈ entries.*1 ->
  exists v, (k, v) ∈ entries
            /\ foldl (fun m kv => <[kv.1 := kv.2]> m) acc entries !! k = Some v.
Proof.
  revert acc. induction entries as [| [k' v] entries IH]; intros acc; simpl.
  - by intros ?%elem_of_nil.
  - intros Hin. destruct (decide (k ∈ entries.*1)) as [Hlater | Hlast].
    + destruct (IH (<[k' := v]> acc) Hlater) as (w & Hw & Hlookup).
      exists w. split; [by apply list_elem_of_further | done].
    + apply elem_of_cons in Hin as [-> | Hin]; [| done].
      exists v. split; [apply list_elem_of_here |].
      rewrite object_literal_lookup_acc by done. apply lookup_insert_eq.
Qed.

Lemma object_literal_Some {V} (entries : list (Z * V)) (k : Z) :
  k ∈ entries.*1 ->
  exists v, (k, v) ∈ entries /\ object_literal entries !! k = Some v.
Proof. apply object_literal_Some_acc. Qed.

End Tables.

(* ===================================================================== *)
(** ** Traces *)
(* ===================================================================== *)

Lemma bind_Normal {A B} (a : A) (k : A -> Completion B) : (Normal a ≫= k) = k a.
Proof. reflexivity. Qed.

Lemma bind_Throw {A B} (e : Exception) (k : A -> Completion B) :
  (Throw e ≫= k) = Throw e.
Proof. reflexivity. Qed.

Section Traces.

Implicit Types (trace : list Event) (device : Device) (cb : Callback).

Lemma emitted_app trace trace' :
  emitted (trace ++ trace') = emitted trace ++ emitted trace'.
Proof. apply omap_app. Qed.

Lemma invoked_app trace trace' :
  invoked (trace ++ trace') = invoked trace ++ invoked trace'.
Proof. apply omap_app. Qed.

Lemma settled_app trace trace' :
  settled (trace ++ trace') = settled trace ++ settled trace'.
Proof. apply omap_app. Qed.

Lemma calls_nil effects device : calls effects device [] = [].
Proof. reflexivity. Qed.

Lemma calls_cons effects device cb callbacks :
  calls effects device (cb :: callbacks)
  = invoke (promise cb) device :: effects cb device ++ calls effects device callbacks.
Proof. reflexivity. Qed.

(** When the callbacks themselves neither emit nor call, the calls of a
    trace are those of the sequence, in its order, each once. *)
Lemma invoked_calls effects device callbacks :
  (forall cb, invoked (effects cb device) = []) ->
  invoked (calls effects device callbacks) = promise <$> callbacks.
Proof.
  intros Hquiet. induction callbacks as [| cb callbacks IH]; [done |].
  rewrite calls_cons. change (invoked (?e :: ?t)) with (invoked ([e] ++ t)).
  rewrite !invoked_app, Hquiet, IH. reflexivity.
Qed.

Lemma emitted_calls effects device callbacks :
  (forall cb, emitted (effects cb device) = []) ->
  emitted (calls effects device callbacks) = [].
Proof.
  intros Hquiet. induction callbacks as [| cb callbacks IH]; [done |].
  rewrite calls_cons. change (emitted (?e :: ?t)) with (emitted ([e] ++ t)).
  rewrite !emitted_app, Hquiet, IH. reflexivity.
Qed.

End Traces.

(* ===================================================================== *)
(** ** BaseHub: the scan of the pending waiters *)
(* ===================================================================== *)

Section Scan.

Import BaseHub.

Variable run : Callback -> Device -> bool * list Event.
Variable device : Device.

(** The loop, from any index inside the list: the entries below the index
    are called from the highest down, those that are satisfied are
    removed, and the entries from the index on are left alone. *)
Lemma scan_from (i : nat) (callbacks : list Callback) :
  (i <= length callbacks)%nat ->
  scan run device i callbacks
  = Normal (filter (declines run device) (take i callbacks) ++ drop i callbacks,
            calls (fun cb d => (run cb d).2) device (reverse (take i callbacks))).
Proof.
  revert callbacks. induction i as [| i IH]; intros callbacks Hi.
  - by rewrite take_0, drop_0.
  - destruct (lookup_lt_is_Some_2 callbacks i ltac:(lia)) as [cb Hcb].
    cbn [scan]. rewrite Hcb.
    rewrite (take_S_r _ _ _ Hcb), reverse_snoc, calls_cons, filter_app.
    destruct (run cb device) as [satisfied effects] eqn:Hrun.
    destruct satisfied.
    + rewrite IH by (rewrite length_delete; [lia | eauto]).
      rewrite delete_take_drop.
      rewrite take_app_length' by (rewrite length_take; lia).
      rewrite drop_app_length' by (rewrite length_take; lia).
      rewrite bind_Normal. cbv beta iota.
      rewrite filter_cons_False, filter_nil, app_nil_r; [done |].
      unfold declines. by rewrite Hrun.
    + rewrite IH by lia. rewrite bind_Normal. cbv beta iota.
      rewrite filter_cons_True, filter_nil
        by (unfold declines; by rewrite Hrun).
      by rewrite (drop_S _ _ _ Hcb), <- app_assoc.
Qed.

(** The whole loop. *)
Lemma scan_all (callbacks : list Callback) :
  scan run device (length callbacks) callbacks
  = Normal (filter (declines run device) callbacks,
            calls (fun cb d => (run cb d).2) device (reverse callbacks)).
Proof.
  rewrite scan_from by done.
  by rewrite firstn_all, drop_all, app_nil_r.
Qed.

End Scan.

(* ===================================================================== *)
(** ** BaseHub: attach, detach and the port lookup *)
(* ===================================================================== *)

Section BaseHubFacts.

Import BaseHub.

Implicit Types (this : State) (device : Device) (cb : Callback).

Lemma callback_quiet this cb device :
  invoked (callback this cb device).2 = []
  /\ emitted (callback this cb device).2 = [].
Proof.
  unfold callback. destruct (waiter cb); case_decide; done.
Qed.

(** [_attachDevice] always returns: it stores the device, emits "attach",
    calls the pending waiters from the last registered to the first and
    keeps those that declined. *)
Lemma BaseHub_attachDevice_eq this device :
  _attachDevice this device
  = Normal
      (set_attachCallbacks (stored this device)
         (filter (declines (callback (stored this device)) device)
            (_attachCallbacks this)),
       emit "attach" device
         :: calls (fun cb d => (callback (stored this device) cb d).2) device
              (reverse (_attachCallbacks this))).
Proof.
  unfold _attachDevice.
  change (_attachCallbacks (stored this device)) with (_attachCallbacks this).
  by rewrite scan_all, bind_Normal.
Qed.

(** The waiters are called in reverse registration order, each exactly
    once; the satisfied ones leave the list, the others stay in their
    order. *)
Lemma BaseHub_attachDevice_scan this device :
  exists this' trace,
    _attachDevice this device = Normal (this', trace)
    /\ invoked trace = promise <$> reverse (_attachCallbacks this)
    /\ _attachCallbacks this'
       = filter (declines (callback (stored this device)) device)
           (_attachCallbacks this)
    /\ (forall cb, cb ∈ _attachCallbacks this ->
        (callback (stored this device) cb device).1 = true ->
        (cb ∉ _attachCallbacks this')
        /\ resolve (promise cb) device ∈ trace).
Proof.
  eexists _, _. split; [apply BaseHub_attachDevice_eq |].
  split; [| split].
  - change (invoked (?e :: ?t)) with (invoked t).
    apply invoked_calls. intros cb. apply callback_quiet.
  - reflexivity.
  - intros cb Hcb Hsat. split.
    + cbn. rewrite list_elem_of_filter. unfold declines.
      intros [Hdeclines _]. congruence.
    + apply list_elem_of_further. unfold calls.
      apply list_elem_of_bind. exists cb. split; [| by apply elem_of_reverse].
      apply list_elem_of_further.
      unfold callback in *. destruct (waiter cb); case_decide; try done;
        apply list_elem_of_here.
Qed.

Lemma BaseHub_attachDevice_emitted this device :
  exists this' trace,
    _attachDevice this device = Normal (this', trace)
    /\ emitted trace = [("attach", device)]
    /\ _attachedDevices this' = <[portId device := device]> (_attachedDevices this)
    /\ _portMap this' = _portMap this.
Proof.
  eexists _, _. split; [apply BaseHub_attachDevice_eq |].
  split; [| done].
  change (emitted (?e :: ?t)) with (("attach", device) :: emitted t).
  rewrite emitted_calls; [done |]. intros cb. apply callback_quiet.
Qed.

(** The port lookup. *)
Lemma BaseHub_getDeviceAtPort_known this name portId :
  property (_portMap this) name = Some portId ->
  getDeviceAtPort this name = Normal (_attachedDevices this !! portId).
Proof.
  intros Hport. unfold getDeviceAtPort. by rewrite (member_own _ _ _ Hport).
Qed.

Lemma BaseHub_getDeviceAtPort_unknown this name :
  name ∉ Object_keys (_portMap this) ->
  name ∉ Object_prototype ->
  getDeviceAtPort this name = Throw (port_not_found name).
Proof.
  intros Hname Hproto. unfold getDeviceAtPort.
  by rewrite (proj2 (member_None _ _) (conj Hname Hproto)).
Qed.

Lemma BaseHub_getDeviceAtPort_inherited this name :
  name ∉ Object_keys (_portMap this) ->
  name ∈ Object_prototype ->
  getDeviceAtPort this name = Normal None.
Proof.
  intros Hname Hproto. unfold getDeviceAtPort.
  by rewrite (member_inherited _ _ Hname Hproto).
Qed.

(** On a [BaseHub] the lookup throws exactly for the names that are
    neither ports of the hub model nor inherited by the port map; port id
    0 is a port like any other. *)
Lemma BaseHub_getDeviceAtPort_spec this name :
  (throws (getDeviceAtPort this name)
   <-> (name ∉ Object_keys (_portMap this)) /\ (name ∉ Object_prototype))
  /\ (forall portId, property (_portMap this) name = Some portId ->
      getDeviceAtPort this name = Normal (_attachedDevices this !! portId)).
Proof.
  split; [| apply BaseHub_getDeviceAtPort_known].
  rewrite <- member_None. unfold getDeviceAtPort.
  destruct (member (_portMap this) name); simpl; [split; [done | congruence] | done].
Qed.

(** The waits leave the table of devices and the port map alone. *)
Lemma waitForDeviceAtPort_frame this name promise :
  _portMap (waitForDeviceAtPort this name promise).1 = _portMap this
  /\ _attachedDevices (waitForDeviceAtPort this name promise).1
     = _attachedDevices this.
Proof.
  unfold waitForDeviceAtPort.
  by destruct (getDeviceAtPort this name) as [[existingDevice |] | e].
Qed.

Lemma waitForDeviceByType_frame this deviceType promise :
  _portMap (waitForDeviceByType this deviceType promise).1 = _portMap this
  /\ _attachedDevices (waitForDeviceByType this deviceType promise).1
     = _attachedDevices this.
Proof.
  unfold waitForDeviceByType.
  by destruct (getDevicesByType this deviceType).
Qed.

(** The calls never fail, and leave the port map alone. *)
Lemma BaseHub_handle_returns this n :
  exists this' trace,
    handle this n = Normal (this', trace)
    /\ _portMap this' = _portMap this
    /\ _attachedDevices this'
       = match n with
         | attach device => <[portId device := device]> (_attachedDevices this)
         | detach device => delete (portId device) (_attachedDevices this)
         | _ => _attachedDevices this
         end.
Proof.
  destruct n as [device | device | name promise | deviceType promise]; simpl.
  - destruct (BaseHub_attachDevice_emitted this device)
      as (this' & trace & -> & _ & Hdevices & Hports). eauto.
  - eexists _, _. split; [reflexivity |]. done.
  - eexists _, _. split; [apply f_equal, surjective_pairing |].
    apply waitForDeviceAtPort_frame.
  - eexists _, _. split; [apply f_equal, surjective_pairing |].
    apply waitForDeviceByType_frame.
Qed.

Lemma BaseHub_run_returns ns : forall this,
  exists this' trace,
    run this ns = Normal (this', trace) /\ _portMap this' = _portMap this.
Proof.
  induction ns as [| n ns IH]; intros this; simpl.
  - eauto.
  - destruct (BaseHub_handle_returns this n) as (this1 & trace1 & -> & Hports1 & _).
    rewrite bind_Normal. cbv beta iota.
    destruct (IH this1) as (this2 & trace2 & -> & Hports2).
    rewrite bind_Normal. cbv beta iota.
    eexists _, _. split; [reflexivity | congruence].
Qed.

End BaseHubFacts.

(* ===================================================================== *)
(** ** Hub: attach and the port lookup *)
(* ===================================================================== *)

Section HubFacts.

Import Hub.

Implicit Types (this : State) (device : Device) (cb : Callback).

Lemma Hub_callback_quiet this cb device :
  invoked (callback this cb device) = []
  /\ emitted (callback this cb device) = [].
Proof.
  unfold callback. destruct (waiter cb); case_decide; done.
Qed.

Lemma forEach_calls run device callbacks :
  forEach run device callbacks = calls run device callbacks.
Proof.
  induction callbacks as [| cb callbacks IH]; [done |].
  simpl. by rewrite IH.
Qed.

(** [Hub._attachDevice] calls the waiters in registration order and keeps
    every one of them in the list, satisfied or not. *)
Lemma Hub_attachDevice_forward this device :
  invoked (_attachDevice this device).2 = promise <$> _attachCallbacks this
  /\ _attachCallbacks (_attachDevice this device).1 = _attachCallbacks this
  /\ emitted (_attachDevice this device).2 = [("attach", device)]
  /\ _attachedDevices (_attachDevice this device).1
     = <[portId device := device]> (_attachedDevices this).
Proof.
  unfold _attachDevice. cbn [fst snd]. rewrite forEach_calls.
  split; [| split; [| split]]; try reflexivity.
  - change (invoked (?e :: ?t)) with (invoked t).
    apply invoked_calls. intros cb. apply Hub_callback_quiet.
  - change (emitted (?e :: ?t)) with (("attach", device) :: emitted t).
    rewrite emitted_calls; [done |]. intros cb. apply Hub_callback_quiet.
Qed.

(** On a [Hub] the lookup throws for the names that are neither ports of
    the hub model nor inherited by the port map, and also for a port whose
    id is 0. *)
Lemma Hub_getDeviceAtPort_spec this name :
  throws (getDeviceAtPort this name)
  <-> ((name ∉ Object_keys (_portMap this)) /\ (name ∉ Object_prototype))
      \/ property (_portMap this) name = Some 0.
Proof.
  rewrite <- member_None. unfold getDeviceAtPort, member.
  destruct (property (_portMap this) name) as [portId |]; simpl.
  - destruct (Z.eqb_spec portId 0) as [-> | Hne]; simpl; [tauto |].
    split; [done | intros [? | ?]; congruence].
  - case_decide; simpl; [| tauto].
    split; [done | intros [? | ?]; congruence].
Qed.

Lemma Hub_getDeviceAtPort_known this name (id : Z) :
  property (_portMap this) name = Some id -> id <> 0 ->
  getDeviceAtPort this name = Normal (_attachedDevices this !! id).
Proof.
  intros Hid Hne. unfold getDeviceAtPort. rewrite (member_own _ _ _ Hid). simpl.
  by destruct (Z.eqb_spec id 0).
Qed.

Lemma Hub_getDeviceAtPort_inherited this name :
  name ∉ Object_keys (_portMap this) ->
  name ∈ Object_prototype ->
  getDeviceAtPort this name = Normal None.
Proof.
  intros Hname Hproto. unfold getDeviceAtPort.
  by rewrite (member_inherited _ _ Hname Hproto).
Qed.

End HubFacts.

(* ===================================================================== *)
(** ** Waiter resolution (C1) and the port lookup (C2) *)
(* ===================================================================== *)

Section WaiterExamples.

Import Sample.

(** C1. Two waits are pending for port B, registered in the order
    [first_wait], [second_wait], and a light is attached to port B.  [Hub]
    calls them in registration order and keeps both in its list; [BaseHub]
    calls the second one first and removes both. *)
Theorem Hub_attach_scans_forward_without_removal :
  Hub._attachCallbacks hub_waiting = [first_wait; second_wait]
  /\ (Hub._attachDevice hub_waiting light_B).2
     = [emit "attach" light_B;
        invoke 1 light_B; resolve 1 light_B;
        invoke 2 light_B; resolve 2 light_B]
  /\ Hub._attachCallbacks (Hub._attachDevice hub_waiting light_B).1
     = [first_wait; second_wait]
  /\ BaseHub._attachCallbacks basehub_waiting = [first_wait; second_wait]
  /\ exists this',
       BaseHub._attachDevice basehub_waiting light_B
       = Normal (this',
                 [emit "attach" light_B;
                  invoke 2 light_B; resolve 2 light_B;
                  invoke 1 light_B; resolve 1 light_B])
       /\ BaseHub._attachCallbacks this' = [].
Proof.
  split; [reflexivity |]. split; [reflexivity |]. split; [reflexivity |].
  split; [reflexivity |].
  eexists. split; [rewrite BaseHub_attachDevice_eq; reflexivity | reflexivity].
Qed.

(** On [Hub] the waiters that were satisfied are called again by the next
    attach. *)
Lemma Hub_attach_calls_resolved_waiters_again :
  invoked (Hub._attachDevice (Hub._attachDevice hub_waiting light_B).1 motor_A).2
  = [1; 2]%nat.
Proof. reflexivity. Qed.

(** C2. Port A of the sample hub model has id 0 and holds a motor.  [Hub]
    answers that the port does not exist; [BaseHub], in the same
    situation, returns the motor. *)
Theorem Hub_getDeviceAtPort_throws_for_port_id_0 :
  "A" ∈ Object_keys portMap
  /\ property portMap "A" = Some 0
  /\ Hub._attachedDevices (Hub._attachDevice hub motor_A).1 !! 0 = Some motor_A
  /\ Hub.getDeviceAtPort (Hub._attachDevice hub motor_A).1 "A"
     = Throw (Error "Port A does not exist on this hub type")
  /\ Hub.getDeviceAtPort hub "A"
     = Throw (Error "Port A does not exist on this hub type")
  /\ BaseHub.getDeviceAtPort (BaseHub.stored basehub motor_A) "A"
     = Normal (Some motor_A)
  /\ BaseHub.getDeviceAtPort basehub "A" = Normal None.
Proof.
  split; [apply list_elem_of_here |]. repeat split.
Qed.

End WaiterExamples.

(* ===================================================================== *)
(** ** One device per port (C8) *)
(* ===================================================================== *)

Section OneDevicePerPort.

Import BaseHub.

Implicit Types (this : State) (device : Device).

Lemma keyed_create portMap type : keyed (create portMap type).
Proof. intros p device. unfold create. simpl. by rewrite lookup_empty. Qed.

Lemma keyed_handle this n this' trace :
  keyed this -> handle this n = Normal (this', trace) -> keyed this'.
Proof.
  intros Hkeyed Hhandle.
  destruct (BaseHub_handle_returns this n) as (this1 & trace1 & Heq & _ & Hdevices).
  rewrite Heq in Hhandle. injection Hhandle as <- <-.
  intros p device. rewrite Hdevices.
  destruct n as [d | d | name promise | deviceType promise]; [| | apply Hkeyed ..].
  - destruct (decide (portId d = p)) as [<- | Hne].
    + rewrite lookup_insert_eq. by intros [= <-].
    + rewrite lookup_insert_ne by done. apply Hkeyed.
  - destruct (decide (portId d = p)) as [<- | Hne].
    + by rewrite lookup_delete_eq.
    + rewrite lookup_delete_ne by done. apply Hkeyed.
Qed.

Lemma keyed_run ns : forall this this' trace,
  keyed this -> run this ns = Normal (this', trace) -> keyed this'.
Proof.
  induction ns as [| n ns IH]; intros this this' trace Hkeyed; simpl.
  - by intros [= <- <-].
  - destruct (BaseHub_handle_returns this n) as (this1 & trace1 & Heq & _).
    rewrite Heq, bind_Normal. cbv beta iota.
    destruct (BaseHub_run_returns ns this1) as (this2 & trace2 & Hrun & _).
    rewrite Hrun, bind_Normal. cbv beta iota. intros [= <- <-].
    eapply IH; [| exact Hrun]. eapply keyed_handle; eauto.
Qed.

(** In a keyed table the devices have pairwise different port ids. *)
Lemma keyed_NoDup this :
  keyed this -> NoDup (portId <$> getDevices this).
Proof.
  intros Hkeyed. unfold getDevices.
  rewrite merge_sort_Permutation, <- list_fmap_compose.
  replace (portId ∘ snd <$> map_to_list (_attachedDevices this))
    with ((map_to_list (_attachedDevices this)).*1).
  - apply NoDup_fst_map_to_list.
  - apply Forall_fmap_ext_1, Forall_forall. intros [p device] Hin.
    apply elem_of_map_to_list in Hin. simpl. symmetry. by apply Hkeyed.
Qed.

(** Calls that attach nothing to a port leave it empty. *)
Lemma run_keeps_port_empty ns : forall this (p : Z),
  _attachedDevices this !! p = None ->
  Forall (fun n => forall d, n = attach d -> portId d <> p) ns ->
  exists this' trace,
    run this ns = Normal (this', trace)
    /\ _portMap this' = _portMap this
    /\ _attachedDevices this' !! p = None.
Proof.
  induction ns as [| n ns IH]; intros this p Hempty Hns; simpl.
  - eauto.
  - apply Forall_cons in Hns as [Hn Hns].
    destruct (BaseHub_handle_returns this n)
      as (this1 & trace1 & -> & Hports1 & Hdevices1).
    rewrite bind_Normal. cbv beta iota.
    destruct (IH this1 p) as (this2 & trace2 & -> & Hports2 & Hempty2); [| done |].
    + rewrite Hdevices1.
      destruct n as [d | d | name promise | deviceType promise]; [| | done ..].
      * rewrite lookup_insert_ne; [done | by apply Hn].
      * rewrite lookup_delete_None. by right.
    + rewrite bind_Normal. cbv beta iota.
      eexists _, _. split; [reflexivity |]. split; [congruence | done].
Qed.

(** C8. Whatever calls a hub has handled (attach and detach notifications,
    waits), its table holds at most one device per port id; and once a
    device is detached, [getDeviceAtPort] for the name of its port returns
    absent, through any further calls that attach nothing to that port,
    until an attach stores a new device there. *)
Theorem one_device_per_port (portMap : Table) (type : Z) (ns : list Call) :
  exists this trace,
    run (create portMap type) ns = Normal (this, trace)
    /\ NoDup (portId <$> getDevices this)
    /\ (forall device name ns',
        property portMap name = Some (portId device) ->
        Forall (fun n => forall d, n = attach d -> portId d <> portId device) ns' ->
        exists this' trace',
          run (_detachDevice this device).1 ns' = Normal (this', trace')
          /\ getDeviceAtPort this' name = Normal None
          /\ forall new, portId new = portId device ->
             exists this'' trace'',
               _attachDevice this' new = Normal (this'', trace'')
               /\ getDeviceAtPort this'' name = Normal (Some new)).
Proof.
  destruct (BaseHub_run_returns ns (create portMap type))
    as (this & trace & Hrun & Hports).
  exists this, trace. split; [done |]. split.
  - apply keyed_NoDup. eapply keyed_run; [apply keyed_create | exact Hrun].
  - intros device name ns' Hname Hns'.
    destruct (run_keeps_port_empty ns' (_detachDevice this device).1 (portId device))
      as (this' & trace' & Hrun' & Hports' & Hempty); [apply lookup_delete_eq | done |].
    exists this', trace'. split; [done |].
    assert (property (_portMap this') name = Some (portId device)) as Hname'.
    { rewrite Hports'. simpl. by rewrite Hports. }
    split.
    + by rewrite (BaseHub_getDeviceAtPort_known _ _ _ Hname'), Hempty.
    + intros new Hnew.
      destruct (BaseHub_attachDevice_emitted this' new)
        as (this'' & trace'' & Hattach & _ & Hdevices & Hports'').
      exists this'', trace''. split; [done |].
      rewrite (BaseHub_getDeviceAtPort_known this'' name (portId device))
        by (by rewrite Hports'').
      by rewrite Hdevices, <- Hnew, lookup_insert_eq.
Qed.

End OneDevicePerPort.

(* ===================================================================== *)
(** ** Detach (C9) and attach on an occupied port (C10) *)
(* ===================================================================== *)

Section AttachDetach.

Implicit Types (device : Device) (cb : Callback).

(** C9. [_detachDevice], of [BaseHub] and of [Hub], removes the entry under
    the port id of the device and nothing else, emits "detach" and nothing
    else (no waiter is called, no promise resolved or rejected), and leaves
    the list of pending waiters as it was; on [BaseHub] each of them is
    still resolved by a later attach that satisfies it. *)
Theorem detach_leaves_waiters_pending
    (this : BaseHub.State) (hub : Hub.State) device :
  (BaseHub._attachCallbacks (BaseHub._detachDevice this device).1
   = BaseHub._attachCallbacks this
   /\ (BaseHub._detachDevice this device).2 = [emit "detach" device]
   /\ settled (BaseHub._detachDevice this device).2 = []
   /\ invoked (BaseHub._detachDevice this device).2 = []
   /\ BaseHub._attachedDevices (BaseHub._detachDevice this device).1
      !! portId device = None
   /\ (forall p, p <> portId device ->
       BaseHub._attachedDevices (BaseHub._detachDevice this device).1 !! p
       = BaseHub._attachedDevices this !! p)
   /\ (forall cb device',
       cb ∈ BaseHub._attachCallbacks this ->
       (BaseHub.callback
          (BaseHub.stored (BaseHub._detachDevice this device).1 device')
          cb device').1 = true ->
       exists this' trace,
         BaseHub._attachDevice (BaseHub._detachDevice this device).1 device'
         = Normal (this', trace)
         /\ resolve (promise cb) device' ∈ trace))
  /\ (Hub._attachCallbacks (Hub._detachDevice hub device).1
      = Hub._attachCallbacks hub
      /\ (Hub._detachDevice hub device).2 = [emit "detach" device]
      /\ settled (Hub._detachDevice hub device).2 = []
      /\ invoked (Hub._detachDevice hub device).2 = []
      /\ Hub._attachedDevices (Hub._detachDevice hub device).1
         !! portId device = None
      /\ (forall p, p <> portId device ->
          Hub._attachedDevices (Hub._detachDevice hub device).1 !! p
          = Hub._attachedDevices hub !! p)).
Proof.
  split.
  - repeat (split; [try reflexivity |]).
    + apply lookup_delete_eq.
    + intros p Hp. simpl. by rewrite lookup_delete_ne.
    + intros cb device' Hcb Hsat.
      destruct (BaseHub_attachDevice_scan (BaseHub._detachDevice this device).1 device')
        as (this' & trace & Hattach & _ & _ & Hresolved).
      exists this', trace. split; [done |].
      by apply (Hresolved cb).
  - repeat (split; [try reflexivity |]).
    + apply lookup_delete_eq.
    + intros p Hp. simpl. by rewrite lookup_delete_ne.
Qed.

(** C10. An attach on a port that already holds a device overwrites the
    entry: the table keeps its size, the new device is the one found under
    the port id, and the only event emitted is "attach" for the new
    device, so nothing announces that the old one is gone. *)
Theorem attach_on_occupied_port_replaces_silently
    (this : BaseHub.State) (hub : Hub.State) (old device : Device) :
  BaseHub._attachedDevices this !! portId device = Some old ->
  Hub._attachedDevices hub !! portId device = Some old ->
  (exists this' trace,
     BaseHub._attachDevice this device = Normal (this', trace)
     /\ emitted trace = [("attach", device)]
     /\ BaseHub._attachedDevices this' !! portId device = Some device
     /\ (forall p, p <> portId device ->
         BaseHub._attachedDevices this' !! p = BaseHub._attachedDevices this !! p)
     /\ size (BaseHub._attachedDevices this') = size (BaseHub._attachedDevices this))
  /\ (emitted (Hub._attachDevice hub device).2 = [("attach", device)]
      /\ Hub._attachedDevices (Hub._attachDevice hub device).1 !! portId device
         = Some device
      /\ (forall p, p <> portId device ->
          Hub._attachedDevices (Hub._attachDevice hub device).1 !! p
          = Hub._attachedDevices hub !! p)
      /\ size (Hub._attachedDevices (Hub._attachDevice hub device).1)
         = size (Hub._attachedDevices hub)).
Proof.
  intros Hold Hold'. split.
  - destruct (BaseHub_attachDevice_emitted this device)
      as (this' & trace & Hattach & Hemitted & Hdevices & _).
    exists this', trace. split; [done |]. split; [done |].
    rewrite Hdevices.
    split; [apply lookup_insert_eq |].
    split; [intros p Hp; by rewrite lookup_insert_ne |].
    rewrite map_size_insert_Some; [done | eauto].
  - destruct (Hub_attachDevice_forward hub device) as (_ & _ & Hemitted & Hdevices).
    split; [done |]. rewrite Hdevices. split; [apply lookup_insert_eq |].
    split; [intros p Hp; by rewrite lookup_insert_ne |].
    rewrite map_size_insert_Some; [done | eauto].
Qed.

End AttachDetach.

Section AttachExamples.

Import Sample.

(** The light on port B is replaced by a motor. *)
Lemma attach_on_occupied_port_replaces_silently_witness :
  (exists this' trace,
     BaseHub._attachDevice (BaseHub.stored basehub light_B) motor_B
     = Normal (this', trace)
     /\ emitted trace = [("attach", motor_B)]
     /\ BaseHub._attachedDevices this' !! 1 = Some motor_B)
  /\ emitted (Hub._attachDevice (Hub.stored hub light_B) motor_B).2
     = [("attach", motor_B)].
Proof.
  destruct (attach_on_occupied_port_replaces_silently
              (BaseHub.stored basehub light_B) (Hub.stored hub light_B)
              light_B motor_B eq_refl eq_refl)
    as [(this' & trace & Hattach & Hemitted & Hdevice & _) (Hemitted' & _)].
  split; [| exact Hemitted'].
  exists this', trace. auto.
Defined.

End AttachExamples.

(* ===================================================================== *)
(** ** Creating the device for a type code (C7) *)
(* ===================================================================== *)

Section CreateDevice.

Import Consts.

Variable DeviceType : DeviceTypeName -> Z.
Variable super_args : Class.t -> option (gmap string Z) * Z.

Lemma new_class (constructor : Class.t) (p : Z) :
  class (new DeviceType super_args constructor p) = constructor
  /\ portId (new DeviceType super_args constructor p) = p.
Proof. by destruct constructor. Qed.

(** Every device type name has an entry in the registry of [BaseHub], and
    no entry is the generic class. *)
Lemma registry_names (n : DeviceTypeName) : n ∈ BaseHub.registry.*1.
Proof.
  destruct n; unfold BaseHub.registry; simpl;
    repeat first [apply list_elem_of_here | apply list_elem_of_further].
Qed.

Lemma registry_decoders (n : DeviceTypeName) (c : Class.t) :
  (n, c) ∈ BaseHub.registry -> c <> Class.Device.
Proof.
  unfold BaseHub.registry. rewrite !elem_of_cons, elem_of_nil.
  intros Hin ->. repeat (destruct Hin as [Hin | Hin]; [discriminate Hin |]). done.
Qed.

Lemma cases_decoders (n : DeviceTypeName) (c : Class.t) :
  (n, c) ∈ Hub.cases -> c <> Class.Device.
Proof.
  unfold Hub.cases. rewrite !elem_of_cons, elem_of_nil.
  intros Hin ->. repeat (destruct Hin as [Hin | Hin]; [discriminate Hin |]). done.
Qed.

Lemma registry_keys :
  (prod_map DeviceType id <$> BaseHub.registry).*1
  = DeviceType <$> BaseHub.registry.*1.
Proof. reflexivity. Qed.

Lemma deviceConstructors_None (deviceType : Z) :
  (forall n, DeviceType n <> deviceType) ->
  BaseHub.deviceConstructors DeviceType !! deviceType = None.
Proof.
  intros Hnone. apply object_literal_None. rewrite registry_keys.
  intros (n & Hn & _)%list_elem_of_fmap. by apply (Hnone n).
Qed.

Lemma deviceConstructors_Some (deviceType : Z) (n : DeviceTypeName) :
  DeviceType n = deviceType ->
  exists n' c,
    (n', c) ∈ BaseHub.registry /\ DeviceType n' = deviceType
    /\ BaseHub.deviceConstructors DeviceType !! deviceType = Some c.
Proof.
  intros Hn.
  destruct (object_literal_Some (prod_map DeviceType id <$> BaseHub.registry) deviceType)
    as (c & Hin & Hlookup).
  { rewrite registry_keys, <- Hn. apply list_elem_of_fmap_2, registry_names. }
  apply list_elem_of_fmap in Hin as ([n' c'] & [= -> ->] & Hin).
  by exists n', c'.
Qed.

Lemma switch_None (cs : list (DeviceTypeName * Class.t)) (deviceType : Z) :
  (forall n, n ∈ cs.*1 -> DeviceType n <> deviceType) ->
  Hub.switch DeviceType cs deviceType = None.
Proof.
  induction cs as [| [label c] cs IH]; simpl; [done |].
  intros Hnone. destruct (Z.eqb_spec deviceType (DeviceType label)) as [-> | Hne].
  - destruct (Hnone label); [apply list_elem_of_here | done].
  - apply IH. intros n Hn. apply Hnone. by apply list_elem_of_further.
Qed.

Lemma switch_Some (cs : list (DeviceTypeName * Class.t)) (deviceType : Z)
    (n : DeviceTypeName) :
  n ∈ cs.*1 -> DeviceType n = deviceType ->
  exists n' c,
    (n', c) ∈ cs /\ DeviceType n' = deviceType
    /\ Hub.switch DeviceType cs deviceType = Some c.
Proof.
  induction cs as [| [label c] cs IH]; simpl.
  - by intros ?%elem_of_nil.
  - intros Hn Hcode.
    destruct (Z.eqb_spec deviceType (DeviceType label)) as [Heq | Hne].
    + exists label, c. split; [apply list_elem_of_here | done].
    + apply elem_of_cons in Hn as [-> | Hn]; [congruence |].
      destruct (IH Hn Hcode) as (n' & c' & Hin & Hcode' & Hswitch).
      exists n', c'. split; [by apply list_elem_of_further | done].
Qed.

(** C7. [_createDevice] is a total function of the type code and the port
    id.  For a code without an entry (in the registry of [BaseHub], among
    the cases of [Hub]) it returns a generic [Device] on that port, with
    that code and an undefined mode map; for a code with an entry it
    returns an instance of a decoder class registered under that code, on
    that port. *)
Theorem createDevice_falls_back_to_generic_device
    (this : BaseHub.State) (hub : Hub.State) (deviceType p : Z) :
  ((forall n, DeviceType n <> deviceType) ->
   BaseHub._createDevice DeviceType super_args this deviceType p
   = {| class := Class.Device; portId := p; modeMap := None; type := deviceType |})
  /\ (forall n, DeviceType n = deviceType ->
      exists n' c,
        (n', c) ∈ BaseHub.registry /\ DeviceType n' = deviceType
        /\ c <> Class.Device
        /\ BaseHub._createDevice DeviceType super_args this deviceType p
           = new DeviceType super_args c p
        /\ class (BaseHub._createDevice DeviceType super_args this deviceType p) = c
        /\ portId (BaseHub._createDevice DeviceType super_args this deviceType p) = p)
  /\ ((forall n, n ∈ Hub.cases.*1 -> DeviceType n <> deviceType) ->
      Hub._createDevice DeviceType super_args hub deviceType p
      = {| class := Class.Device; portId := p; modeMap := None; type := deviceType |})
  /\ (forall n, n ∈ Hub.cases.*1 -> DeviceType n = deviceType ->
      exists n' c,
        (n', c) ∈ Hub.cases /\ DeviceType n' = deviceType
        /\ c <> Class.Device
        /\ Hub._createDevice DeviceType super_args hub deviceType p
           = new DeviceType super_args c p
        /\ class (Hub._createDevice DeviceType super_args hub deviceType p) = c
        /\ portId (Hub._createDevice DeviceType super_args hub deviceType p) = p).
Proof.
  split; [| split; [| split]].
  - intros Hnone. unfold BaseHub._createDevice.
    by rewrite (deviceConstructors_None _ Hnone).
  - intros n Hn.
    destruct (deviceConstructors_Some deviceType n Hn) as (n' & c & Hin & Hcode & Hlookup).
    exists n', c. unfold BaseHub._createDevice. rewrite Hlookup.
    pose proof (new_class c p) as [Hclass Hport].
    pose proof (registry_decoders n' c Hin). done.
  - intros Hnone. unfold Hub._createDevice.
    by rewrite (switch_None _ _ Hnone).
  - intros n Hn Hcode.
    destruct (switch_Some Hub.cases deviceType n Hn Hcode)
      as (n' & c & Hin & Hcode' & Hswitch).
    exists n', c. unfold Hub._createDevice. rewrite Hswitch.
    pose proof (new_class c p) as [Hclass Hport].
    pose proof (cases_decoders n' c Hin). done.
Qed.

(** With pairwise different codes, the class is the one written next to
    the name. *)
Lemma createDevice_registered (this : BaseHub.State) (n : DeviceTypeName)
    (c : Class.t) (p : Z) :
  Inj (=) (=) DeviceType ->
  (n, c) ∈ BaseHub.registry ->
  BaseHub._createDevice DeviceType super_args this (DeviceType n) p
  = new DeviceType super_args c p.
Proof.
  intros Hinj Hin.
  destruct (deviceConstructors_Some (DeviceType n) n eq_refl)
    as (n' & c' & Hin' & Hcode%Hinj & Hlookup).
  subst n'. unfold BaseHub._createDevice. rewrite Hlookup.
  replace c' with c; [done |].
  revert Hin Hin'. unfold BaseHub.registry. rewrite !elem_of_cons, !elem_of_nil.
  intros Hin Hin'.
  repeat (destruct Hin as [Hin | Hin];
          [injection Hin as -> ->;
           repeat (destruct Hin' as [Hin' | Hin'];
                   [first [discriminate Hin' | by injection Hin' as ->] |]);
           done |]).
  done.
Qed.

End CreateDevice.

Section CreateExamples.

Import Sample.

Lemma createDevice_voltage_sensor :
  BaseHub._createDevice DeviceType super_args basehub 20 1
  = {| class := Class.VoltageSensor; portId := 1;
       modeMap := Some VoltageSensor.ModeMap; type := 20 |}.
Proof. reflexivity. Qed.

Lemma createDevice_unknown_code :
  BaseHub._createDevice DeviceType super_args basehub 99 1
  = {| class := Class.Device; portId := 1; modeMap := None; type := 99 |}
  /\ Hub._createDevice DeviceType super_args hub 99 1
     = {| class := Class.Device; portId := 1; modeMap := None; type := 99 |}.
Proof. split; reflexivity. Qed.

(** [Hub] has no case for the voltage sensor. *)
Lemma Hub_createDevice_voltage_sensor :
  Hub._createDevice DeviceType super_args hub 20 1
  = {| class := Class.Device; portId := 1; modeMap := None; type := 20 |}.
Proof. reflexivity. Qed.

End CreateExamples.

(* ===================================================================== *)
(** ** More on the decoders *)
(* ===================================================================== *)

Section DecoderEvents.

Import Consts.

Variable super_receive : DeviceState -> Buffer -> Completion (list Emission).
Variable HubType : HubTypeName -> Z.

Implicit Types (this : DeviceState) (message : Buffer).

Lemma index_range message (i : nat) (v : Z) :
  index message i = Some v -> 0 <= v <= 255.
Proof.
  unfold index. destruct (message !! i) as [b |]; [| done].
  simpl. intros [= <-]. pose proof (byte_val_range b). lia.
Qed.

(** X1. Outside auto-parse mode, each of the three decoders emits at most
    one event per buffer, and the name of that event is mapped to the
    current mode by the decoder's [ModeMap]: a decoder never emits an
    event of a mode other than the one it is in. *)
Theorem decoders_emit_events_of_the_current_mode this message :
  hub_autoParse this = false ->
  (forall events,
     DuploTrainBaseColorSensor.receive super_receive this message = Normal events ->
     (length events <= 1)%nat
     /\ forall e, e ∈ events ->
        DuploTrainBaseColorSensor.ModeMap !! event_name e = _mode this)
  /\ (forall events,
        VoltageSensor.receive HubType this message = Normal events ->
        (length events <= 1)%nat
        /\ forall e, e ∈ events ->
           VoltageSensor.ModeMap !! event_name e = _mode this)
  /\ (forall events,
        RemoteControlButton.receive this message = Normal events ->
        (length events <= 1)%nat
        /\ forall e, e ∈ events ->
           RemoteControlButton.ModeMap !! event_name e = _mode this).
Proof.
  intros Hauto. split; [| split]; intros events.
  - unfold DuploTrainBaseColorSensor.receive. rewrite Hauto.
    destruct (_mode this) as [mode |];
      [| intros [= <-]; split; [simpl; lia | by intros e ?%elem_of_nil]].
    destruct (Z.eqb_spec mode DuploTrainBaseColorSensor.Mode.COLOR) as [-> | _].
    { destruct (index message 4) as [color |];
        [destruct (color <=? 10) |]; intros [= <-];
        (split; [simpl; lia |]); intros e He;
        first [by apply elem_of_nil in He
              | by apply list_elem_of_singleton in He as ->]. }
    destruct (Z.eqb_spec mode DuploTrainBaseColorSensor.Mode.REFLECTIVITY) as [-> | _].
    { intros [= <-]. split; [simpl; lia |]. intros e He.
      by apply list_elem_of_singleton in He as ->. }
    destruct (Z.eqb_spec mode DuploTrainBaseColorSensor.Mode.RGB) as [-> | _].
    { destruct (readUInt16LE message 4) as [r |]; [| done].
      destruct (readUInt16LE message 6) as [g |]; [| done].
      destruct (readUInt16LE message 8) as [b |]; [| done].
      intros [= <-]. split; [simpl; lia |]. intros e He.
      by apply list_elem_of_singleton in He as ->. }
    intros [= <-]. split; [simpl; lia | by intros e ?%elem_of_nil].
  - unfold VoltageSensor.receive.
    destruct (_mode this) as [mode |];
      [| intros [= <-]; split; [simpl; lia | by intros e ?%elem_of_nil]].
    destruct (Z.eqb_spec mode VoltageSensor.Mode.VOLTAGE) as [-> | _];
      [| intros [= <-]; split; [simpl; lia | by intros e ?%elem_of_nil]].
    destruct (isWeDo2SmartHub this).
    + destruct (readInt16LE message 2) as [raw |]; [| done].
      intros [= <-]. split; [simpl; lia |]. intros e He.
      by apply list_elem_of_singleton in He as ->.
    + destruct (readUInt16LE message 4) as [raw |]; [| done].
      intros [= <-]. split; [simpl; lia |]. intros e He.
      by apply list_elem_of_singleton in He as ->.
  - unfold RemoteControlButton.receive.
    destruct (_mode this) as [mode |];
      [| intros [= <-]; split; [simpl; lia | by intros e ?%elem_of_nil]].
    destruct (Z.eqb_spec mode RemoteControlButton.Mode.BUTTON_EVENTS) as [-> | _];
      [| intros [= <-]; split; [simpl; lia | by intros e ?%elem_of_nil]].
    intros [= <-]. split; [simpl; lia |]. intros e He.
    by apply list_elem_of_singleton in He as ->.
Qed.

(** X2. Outside auto-parse mode, whatever the buffer holds, the values
    the colour sensor emits are bounded: a colour lies between 0 and 10, a
    reflectivity that is present between 0 and 255, and each RGB channel
    between 0 and 16383 (a 16-bit value divided by 4: the channels are not
    brought down to 8 bits). *)
Theorem color_sensor_values_in_range this message (events : list Emission)
    (name : string) (p : Payload) :
  hub_autoParse this = false ->
  DuploTrainBaseColorSensor.receive super_receive this message = Normal events ->
  notify name p ∈ events ->
  in_range p.
Proof.
  intros Hauto. unfold DuploTrainBaseColorSensor.receive. rewrite Hauto.
  destruct (_mode this) as [mode |]; [| by intros [= <-] ?%elem_of_nil].
  destruct (mode =? DuploTrainBaseColorSensor.Mode.COLOR).
  { destruct (index message 4) as [color |] eqn:Hcolor;
      [| by intros [= <-] ?%elem_of_nil].
    destruct (Z.leb_spec color 10); [| by intros [= <-] ?%elem_of_nil].
    intros [= <-] [= _ ->]%list_elem_of_singleton. simpl.
    pose proof (index_range _ _ _ Hcolor). lia. }
  destruct (mode =? DuploTrainBaseColorSensor.Mode.REFLECTIVITY).
  { intros [= <-] [= _ ->]%list_elem_of_singleton. simpl.
    destruct (index message 4) as [reflect |] eqn:Hreflect; [| done].
    apply (index_range _ _ _ Hreflect). }
  destruct (mode =? DuploTrainBaseColorSensor.Mode.RGB);
    [| by intros [= <-] ?%elem_of_nil].
  destruct (readUInt16LE message 4) as [r |] eqn:Hr; [| done].
  destruct (readUInt16LE message 6) as [g |] eqn:Hg; [| done].
  destruct (readUInt16LE message 8) as [b |] eqn:Hb; [| done].
  intros [= <-] [= _ ->]%list_elem_of_singleton. simpl.
  pose proof (readUInt16LE_range _ _ _ Hr) as Hr'.
  pose proof (readUInt16LE_range _ _ _ Hg) as Hg'.
  pose proof (readUInt16LE_range _ _ _ Hb) as Hb'.
  change (2 ^ 16) with 65536 in Hr', Hg', Hb'.
  repeat split; Z.div_mod_to_equations; lia.
Qed.

End DecoderEvents.

Section VoltageScaling.

Import Consts VoltageSensor.

Variable HubType : HubTypeName -> Z.
Hypothesis HubType_inj : Inj (=) (=) HubType.

Implicit Types (this : DeviceState) (message : Buffer).

Ltac row :=
  rewrite ?lookup_insert_ne
    by (intros Heq; apply HubType_inj in Heq; discriminate Heq);
  apply lookup_insert_eq.

(** X3. The scaling of the raw voltage on a hub that is not a WeDo 2.0
    smart hub, by hub type: 6.4 / 3047 on the Duplo train base, 6.4 / 3200
    on the remote control, 9.615 / 4095 on the Technic medium hub (which
    has a row in the raw table only) and 9.615 / 3893 on a hub of type
    UNKNOWN; the raw value is the little-endian unsigned 16-bit value at
    offset 4. *)
Theorem voltage_scaling_by_hub_type this message (lo hi : byte) :
  _mode this = Some Mode.VOLTAGE ->
  isWeDo2SmartHub this = false ->
  message !! 4%nat = Some lo -> message !! 5%nat = Some hi ->
  (hub_type this = HubType DUPLO_TRAIN_BASE ->
   receive HubType this message
   = Normal [emitGlobal "voltage"
               (Voltage (number (byte_val lo + byte_val hi * 2 ^ 8) * 6.4 / 3047))])
  /\ (hub_type this = HubType REMOTE_CONTROL ->
      receive HubType this message
      = Normal [emitGlobal "voltage"
                  (Voltage (number (byte_val lo + byte_val hi * 2 ^ 8) * 6.4 / 3200))])
  /\ (hub_type this = HubType TECHNIC_MEDIUM_HUB ->
      receive HubType this message
      = Normal [emitGlobal "voltage"
                  (Voltage (number (byte_val lo + byte_val hi * 2 ^ 8) * 9.615 / 4095))])
  /\ (hub_type this = HubType UNKNOWN ->
      receive HubType this message
      = Normal [emitGlobal "voltage"
                  (Voltage (number (byte_val lo + byte_val hi * 2 ^ 8) * 9.615 / 3893))]).
Proof.
  intros Hmode Hwedo Hlo Hhi.
  split; [| split; [| split]]; intros Htype.
  - rewrite (voltage_mode _ _ _ Hmode Hwedo), Htype.
    rewrite (lookup_or_unknown_row _ _ _ 6.4%float) by (unfold MaxVoltageValue; row).
    rewrite (lookup_or_unknown_row _ _ _ 3047%float) by (unfold MaxVoltageRaw; row).
    by rewrite (readUInt16LE_lookup _ _ _ _ Hlo Hhi).
  - rewrite (voltage_mode _ _ _ Hmode Hwedo), Htype.
    rewrite (lookup_or_unknown_row _ _ _ 6.4%float) by (unfold MaxVoltageValue; row).
    rewrite (lookup_or_unknown_row _ _ _ 3200%float) by (unfold MaxVoltageRaw; row).
    by rewrite (readUInt16LE_lookup _ _ _ _ Hlo Hhi).
  - by apply voltage_technic_medium_hub.
  - rewrite (voltage_mode _ _ _ Hmode Hwedo), Htype.
    rewrite (lookup_or_unknown_row _ _ _ 9.615%float) by (unfold MaxVoltageValue; row).
    rewrite (lookup_or_unknown_row _ _ _ 3893%float) by (unfold MaxVoltageRaw; row).
    by rewrite (readUInt16LE_lookup _ _ _ _ Hlo Hhi).
Qed.

End VoltageScaling.

Section VoltageWeDo2.

Import Consts VoltageSensor.

Variable HubType : HubTypeName -> Z.

Implicit Types (this : DeviceState) (message : Buffer).

(** X4. On a WeDo 2.0 smart hub the voltage is read from offset 2 and
    does not depend on the hub type or on the scaling tables: it is raw /
    40, where raw is the two's-complement 16-bit value of the bytes at
    offsets 2 and 3 (negative exactly when the byte at offset 3 is 128 or
    more). *)
Theorem voltage_on_wedo2_is_signed this message (lo hi : byte) :
  _mode this = Some Mode.VOLTAGE ->
  isWeDo2SmartHub this = true ->
  message !! 2%nat = Some lo -> message !! 3%nat = Some hi ->
  exists raw,
    receive HubType this message
    = Normal [emitGlobal "voltage" (Voltage (number raw / 40))]
    /\ -32768 <= raw <= 32767
    /\ raw mod 65536 = byte_val lo + byte_val hi * 256
    /\ (raw < 0 <-> 128 <= byte_val hi).
Proof.
  intros Hmode Hwedo Hlo Hhi.
  rewrite (voltage_mode_wedo2 _ _ _ Hmode Hwedo).
  unfold readInt16LE.
  rewrite (index_lookup _ _ _ Hlo), (index_lookup _ _ _ Hhi).
  pose proof (byte_val_range lo) as Hlo'. pose proof (byte_val_range hi) as Hhi'.
  change (2 ^ 8) with 256. change (2 ^ 16) with 65536.
  destruct (Z.testbit (byte_val lo + byte_val hi * 256) 15) eqn:Hbit.
  - apply Z.testbit_true in Hbit; [| lia]. change (2 ^ 15) with 32768 in Hbit.
    eexists. split; [reflexivity |].
    repeat split; Z.div_mod_to_equations; lia.
  - apply Z.testbit_false in Hbit; [| lia]. change (2 ^ 15) with 32768 in Hbit.
    eexists. split; [reflexivity |].
    repeat split; Z.div_mod_to_equations; lia.
Qed.

End VoltageWeDo2.

Section ButtonStates.

Import RemoteControlButton.

Implicit Types (this : DeviceState) (message : Buffer).

Lemma ButtonState_entries (state : string) (code : Z) :
  ButtonState !! state = Some code <->
  (state, code) ∈ [("UP", 1); ("DOWN", 255); ("STOP", 127); ("RELEASED", 0)].
Proof.
  unfold ButtonState.
  rewrite !lookup_insert_Some, lookup_empty, !elem_of_cons, elem_of_nil.
  split.
  - intros Hentry.
    do 4 (destruct Hentry as [[<- <-] | [_ Hentry]]; [auto 10 |]).
    discriminate Hentry.
  - intros [[= -> ->] | [[= -> ->] | [[= -> ->] | [[= -> ->] | []]]]];
      repeat first [by left | right; split; [done |]].
Qed.

(** X5. In BUTTON_EVENTS mode the remote control button passes the byte
    at offset 4 on unchanged, whatever its value; and the codes of
    [ButtonState] fit in one byte and are pairwise different, so that the
    value of the event tells the state of the button. *)
Theorem button_event_is_the_raw_byte this message (b : byte) :
  _mode this = Some Mode.BUTTON_EVENTS ->
  message !! 4%nat = Some b ->
  receive this message
  = Normal [emitGlobal "remoteButton" (Button (Some (byte_val b)))]
  /\ (forall state code, ButtonState !! state = Some code -> 0 <= code <= 255)
  /\ (forall state state' code,
      ButtonState !! state = Some code -> ButtonState !! state' = Some code ->
      state = state').
Proof.
  intros Hmode Hb. split; [| split].
  - unfold receive. rewrite Hmode, (index_lookup _ _ _ Hb). reflexivity.
  - intros state code. rewrite ButtonState_entries, !elem_of_cons, elem_of_nil.
    intros [[= _ ->] | [[= _ ->] | [[= _ ->] | [[= _ ->] | []]]]]; lia.
  - intros state state' code. rewrite !ButtonState_entries, !elem_of_cons, !elem_of_nil.
    intros Hstate Hstate'. destruct_or!; by simplify_eq.
Qed.

End ButtonStates.

Section ModeMaps.

Import Consts.

Variable super_receive : DeviceState -> Buffer -> Completion (list Emission).
Variable HubType : HubTypeName -> Z.

Implicit Types (this : DeviceState) (message : Buffer).

Lemma color_sensor_ModeMap (name : string) (mode : Z) :
  DuploTrainBaseColorSensor.ModeMap !! name = Some mode ->
  (name = "color" /\ mode = 0) \/ (name = "reflect" /\ mode = 2)
  \/ (name = "rgb" /\ mode = 3).
Proof.
  unfold DuploTrainBaseColorSensor.ModeMap.
  rewrite !lookup_insert_Some, lookup_empty.
  intros Hentry.
  do 3 (destruct Hentry as [[<- <-] | [_ Hentry]]; [auto |]).
  discriminate Hentry.
Qed.

(** X20. Every event name of a [ModeMap] is decoded: with the device in
    the mode the name is mapped to, outside auto-parse mode, and a buffer
    of at least 10 bytes, [receive] emits exactly one event, under that
    name; the one exception is the colour sensor in COLOR mode with a byte
    above 10 at offset 4, which emits nothing. *)
Theorem every_event_of_a_ModeMap_is_decoded this message (name : string) (mode : Z) :
  hub_autoParse this = false ->
  _mode this = Some mode ->
  (10 <= length message)%nat ->
  (DuploTrainBaseColorSensor.ModeMap !! name = Some mode ->
   (exists p, DuploTrainBaseColorSensor.receive super_receive this message
              = Normal [notify name p])
   \/ (name = "color"
       /\ (exists color, index message 4 = Some color /\ 10 < color)
       /\ DuploTrainBaseColorSensor.receive super_receive this message = Normal []))
  /\ (VoltageSensor.ModeMap !! name = Some mode ->
      exists p, VoltageSensor.receive HubType this message
                = Normal [emitGlobal name p])
  /\ (RemoteControlButton.ModeMap !! name = Some mode ->
      exists p, RemoteControlButton.receive this message
                = Normal [emitGlobal name p]).
Proof.
  intros Hauto Hmode Hlen. split; [| split].
  - intros [[-> ->] | [[-> ->] | [-> ->]]]%color_sensor_ModeMap;
      rewrite (color_sensor_mode _ _ _ _ Hauto Hmode).
    + destruct (index_inside message 4 ltac:(lia)) as (b & _ & Hb).
      rewrite Hb. change (0 =? DuploTrainBaseColorSensor.Mode.COLOR) with true.
      cbv iota. destruct (Z.leb_spec (byte_val b) 10); [left; eauto |].
      right. split; [done |]. split; [eauto | done].
    + left. eauto.
    + left.
      destruct (index_inside message 4 ltac:(lia)) as (b4 & H4 & _).
      destruct (index_inside message 5 ltac:(lia)) as (b5 & H5 & _).
      destruct (index_inside message 6 ltac:(lia)) as (b6 & H6 & _).
      destruct (index_inside message 7 ltac:(lia)) as (b7 & H7 & _).
      destruct (index_inside message 8 ltac:(lia)) as (b8 & H8 & _).
      destruct (index_inside message 9 ltac:(lia)) as (b9 & H9 & _).
      change (3 =? DuploTrainBaseColorSensor.Mode.COLOR) with false.
      change (3 =? DuploTrainBaseColorSensor.Mode.REFLECTIVITY) with false.
      change (3 =? DuploTrainBaseColorSensor.Mode.RGB) with true. cbv iota.
      rewrite (readUInt16LE_lookup _ _ _ _ H4 H5).
      rewrite (readUInt16LE_lookup _ _ _ _ H6 H7).
      rewrite (readUInt16LE_lookup _ _ _ _ H8 H9). eauto.
  - unfold VoltageSensor.ModeMap.
    rewrite lookup_insert_Some, lookup_empty.
    intros [[<- <-] | [_ [=]]].
    unfold VoltageSensor.receive. rewrite Hmode.
    change (VoltageSensor.Mode.VOLTAGE =? VoltageSensor.Mode.VOLTAGE) with true.
    cbv iota. destruct (isWeDo2SmartHub this).
    + destruct (index_inside message 2 ltac:(lia)) as (lo & _ & Hlo).
      destruct (index_inside message 3 ltac:(lia)) as (hi & _ & Hhi).
      unfold readInt16LE. rewrite Hlo, Hhi. eauto.
    + destruct (index_inside message 4 ltac:(lia)) as (lo & Hlo & _).
      destruct (index_inside message 5 ltac:(lia)) as (hi & Hhi & _).
      rewrite (readUInt16LE_lookup _ _ _ _ Hlo Hhi). eauto.
  - unfold RemoteControlButton.ModeMap.
    rewrite lookup_insert_Some, lookup_empty.
    intros [[<- <-] | [_ [=]]].
    unfold RemoteControlButton.receive. rewrite Hmode. eauto.
Qed.

End ModeMaps.

(* ===================================================================== *)
(** ** More on the port map and the table of devices *)
(* ===================================================================== *)

Section PortNames.

Implicit Types (o : Table) (name : string).

Lemma first_port_Some o (ports : list string) (id : Z) name :
  BaseHub.first_port o ports id = Some name ->
  name ∈ ports /\ property o name = Some id.
Proof.
  induction ports as [| port ports IH]; simpl; [done |].
  case_decide as Hport.
  - intros [= <-]. split; [apply list_elem_of_here | done].
  - intros [Hin Hname]%IH. split; [by apply list_elem_of_further | done].
Qed.

Lemma first_port_None o (ports : list string) (id : Z) :
  BaseHub.first_port o ports id = None <->
  forall name, name ∈ ports -> property o name <> Some id.
Proof.
  induction ports as [| port ports IH]; simpl.
  - split; [intros _ name ?%elem_of_nil; done | done].
  - case_decide as Hport.
    + split; [done |]. intros Hnone. destruct (Hnone port); [apply list_elem_of_here | done].
    + rewrite IH. split.
      * intros Hnone name [-> | Hin]%elem_of_cons; [done | by apply Hnone].
      * intros Hnone name Hin. apply Hnone. by apply list_elem_of_further.
Qed.

(** With pairwise different ids, an id belongs to one name. *)
Lemma Table_value_inj o name name' (id : Z) :
  NoDup o.*2 -> (name, id) ∈ o -> (name', id) ∈ o -> name = name'.
Proof.
  induction o as [| [k v] o IH]; simpl.
  - by intros _ ?%elem_of_nil.
  - rewrite NoDup_cons. intros [Hv Hnodup].
    intros [Heq | Hin]%elem_of_cons [Heq' | Hin']%elem_of_cons; simplify_eq.
    + done.
    + destruct Hv. exact (list_elem_of_fmap_2 snd _ _ Hin').
    + destruct Hv. exact (list_elem_of_fmap_2 snd _ _ Hin).
    + by apply IH.
Qed.

Lemma getPortNameForPortId_facts o (id : Z) :
  (forall name, BaseHub.first_port o (Object_keys o) id = Some name ->
     name ∈ Object_keys o /\ property o name = Some id)
  /\ (BaseHub.first_port o (Object_keys o) id = None <->
      forall name, property o name <> Some id)
  /\ (forall name, property o name = Some id -> NoDup o.*2 ->
      BaseHub.first_port o (Object_keys o) id = Some name).
Proof.
  assert (BaseHub.first_port o (Object_keys o) id = None <->
          forall name, property o name <> Some id) as Hnone.
  { rewrite first_port_None. split; [| auto].
    intros Hnone name Hname. apply (Hnone name); [| done].
    apply property_is_Some. eauto. }
  split; [apply first_port_Some |]. split; [done |].
  intros name Hname Hnodup.
  destruct (BaseHub.first_port o (Object_keys o) id) as [name' |] eqn:Hfirst.
  - apply first_port_Some in Hfirst as [_ Hname'].
    f_equal. eapply Table_value_inj; eauto using property_elem_of.
  - destruct (proj1 Hnone eq_refl name Hname).
Qed.

(** X6. [getPortNameForPortId], of [BaseHub] and of [Hub], is the reverse
    of the port map: a name it returns is a port of the hub that is mapped
    to the id; it returns nothing exactly when no name is mapped to the id;
    and when the ids of the port map are pairwise different, it returns the
    very name that is mapped to the id. *)
Theorem getPortNameForPortId_reverses_the_port_map
    (this : BaseHub.State) (hub : Hub.State) (id : Z) :
  ((forall name, BaseHub.getPortNameForPortId this id = Some name ->
      name ∈ BaseHub.ports this
      /\ property (BaseHub._portMap this) name = Some id)
   /\ (BaseHub.getPortNameForPortId this id = None <->
       forall name, property (BaseHub._portMap this) name <> Some id)
   /\ (forall name, property (BaseHub._portMap this) name = Some id ->
       NoDup (BaseHub._portMap this).*2 ->
       BaseHub.getPortNameForPortId this id = Some name))
  /\ ((forall name, Hub.getPortNameForPortId hub id = Some name ->
         name ∈ Hub.ports hub
         /\ property (Hub._portMap hub) name = Some id)
      /\ (Hub.getPortNameForPortId hub id = None <->
          forall name, property (Hub._portMap hub) name <> Some id)
      /\ (forall name, property (Hub._portMap hub) name = Some id ->
          NoDup (Hub._portMap hub).*2 ->
          Hub.getPortNameForPortId hub id = Some name)).
Proof.
  split.
  - apply (getPortNameForPortId_facts (BaseHub._portMap this) id).
  - apply (getPortNameForPortId_facts (Hub._portMap hub) id).
Qed.

End PortNames.

Section PortLookup.

Implicit Types (name : string) (device : Device).

(** X7. [BaseHub.getDeviceAtPort] on any name.  For a name listed by
    [ports] it returns what [_getDeviceByPortId] finds under the id of the
    port (a device or nothing), port id 0 included.  For a name that is
    not a port but that the port map inherits from [Object.prototype]
    ("toString", "constructor", ...) the test [portId !== undefined]
    succeeds too, and it returns nothing.  For any other name it throws
    the port-not-found error that carries the name.  So it throws exactly
    for the names that are neither ports nor inherited. *)
Theorem BaseHub_getDeviceAtPort_succeeds_on_ports (this : BaseHub.State) name :
  (name ∈ BaseHub.ports this ->
   exists id,
     property (BaseHub._portMap this) name = Some id
     /\ BaseHub.getDeviceAtPort this name
        = Normal (BaseHub._getDeviceByPortId this id))
  /\ (name ∉ BaseHub.ports this -> name ∈ Object_prototype ->
      BaseHub.getDeviceAtPort this name = Normal None)
  /\ (name ∉ BaseHub.ports this -> name ∉ Object_prototype ->
      BaseHub.getDeviceAtPort this name
      = Throw (Error ("Port " +:+ name +:+ " does not exist on this hub type")))
  /\ (throws (BaseHub.getDeviceAtPort this name)
      <-> (name ∉ BaseHub.ports this) /\ (name ∉ Object_prototype)).
Proof.
  split; [| split; [| split]].
  - intros [id Hid]%property_is_Some. exists id. split; [done |].
    by apply BaseHub_getDeviceAtPort_known.
  - apply BaseHub_getDeviceAtPort_inherited.
  - apply BaseHub_getDeviceAtPort_unknown.
  - apply BaseHub_getDeviceAtPort_spec.
Qed.

(** X8. [Hub.getDeviceAtPort] on any name.  It throws exactly for a name
    that is neither a port nor inherited by the port map from
    [Object.prototype], and for the port whose id is 0.  For a port with
    another id it returns the entry of the table, and for an inherited
    name that is not a port it returns nothing (a function is true for
    [if (portId)]).  So on a [Hub] a wait for the port with id 0 is
    rejected at once and registers nothing, even while a device is
    attached there. *)
Theorem Hub_getDeviceAtPort_excludes_port_id_0 (hub : Hub.State) name :
  (throws (Hub.getDeviceAtPort hub name)
   <-> ((name ∉ Hub.ports hub) /\ (name ∉ Object_prototype))
       \/ property (Hub._portMap hub) name = Some 0)
  /\ (forall id, property (Hub._portMap hub) name = Some id -> id <> 0 ->
      Hub.getDeviceAtPort hub name = Normal (Hub._getDeviceByPortId hub id))
  /\ (name ∉ Hub.ports hub -> name ∈ Object_prototype ->
      Hub.getDeviceAtPort hub name = Normal None)
  /\ (forall promise, property (Hub._portMap hub) name = Some 0 ->
      Hub.waitForDeviceAtPort hub name promise
      = (hub, [reject promise (Hub.port_not_found name)])).
Proof.
  split; [apply Hub_getDeviceAtPort_spec |]. split; [| split].
  - apply Hub_getDeviceAtPort_known.
  - apply Hub_getDeviceAtPort_inherited.
  - intros promise Hid. unfold Hub.waitForDeviceAtPort, Hub.getDeviceAtPort.
    by rewrite (member_own _ _ _ Hid).
Qed.

Lemma values_by_key (m : gmap Z Device) device :
  device ∈ (merge_sort key_le (map_to_list m)).*2 <-> exists p, m !! p = Some device.
Proof.
  rewrite merge_sort_Permutation, list_elem_of_fmap. split.
  - intros ([p d] & -> & Hin%elem_of_map_to_list). by exists p.
  - intros [p Hp]. exists (p, device). split; [done |]. by apply elem_of_map_to_list.
Qed.

Lemma values_length (m : gmap Z Device) :
  length (merge_sort key_le (map_to_list m)).*2 = size m.
Proof.
  by rewrite length_fmap, merge_sort_Permutation, length_map_to_list.
Qed.

(** X9. [getDevices] and [getDevicesByType], of [BaseHub] and of [Hub], are
    snapshots of the table: [getDevices] lists exactly the devices stored
    under some port id, one per entry, and [getDevicesByType] exactly those
    of them that have the type asked for. *)
Theorem getDevices_lists_the_table
    (this : BaseHub.State) (hub : Hub.State) device (deviceType : Z) :
  (device ∈ BaseHub.getDevices this
   <-> exists p, BaseHub._attachedDevices this !! p = Some device)
  /\ length (BaseHub.getDevices this) = size (BaseHub._attachedDevices this)
  /\ (device ∈ BaseHub.getDevicesByType this deviceType
      <-> type device = deviceType
          /\ exists p, BaseHub._attachedDevices this !! p = Some device)
  /\ (device ∈ Hub.getDevices hub
      <-> exists p, Hub._attachedDevices hub !! p = Some device)
  /\ length (Hub.getDevices hub) = size (Hub._attachedDevices hub)
  /\ (device ∈ Hub.getDevicesByType hub deviceType
      <-> type device = deviceType
          /\ exists p, Hub._attachedDevices hub !! p = Some device).
Proof.
  unfold BaseHub.getDevicesByType, Hub.getDevicesByType.
  rewrite !list_elem_of_filter.
  unfold BaseHub.getDevices, Hub.getDevices.
  rewrite !values_by_key, !values_length. done.
Qed.

End PortLookup.

(* ===================================================================== *)
(** ** More on the waiters *)
(* ===================================================================== *)

Section Waiters.

Import BaseHub.

Implicit Types (this : State) (device : Device) (cb : Callback).

Lemma settled_cons_invoke p device (trace : list Event) :
  settled (invoke p device :: trace) = settled trace.
Proof. reflexivity. Qed.

(** A callback settles its promise exactly when it is satisfied. *)
Lemma settled_callback this cb device :
  settled (callback this cb device).2
  = if decide (declines (callback this) device cb) then [] else [promise cb].
Proof.
  destruct (decide (declines (callback this) device cb)) as [Hd | Hd];
    unfold declines, callback in *;
    destruct (waiter cb); case_decide; simpl in *; congruence.
Qed.

Lemma settled_calls this device (callbacks : list Callback) :
  settled (calls (fun cb d => (callback this cb d).2) device callbacks)
  = promises (filter (fun cb => ~ declines (callback this) device cb) callbacks).
Proof.
  induction callbacks as [| cb callbacks IH]; [done |].
  rewrite calls_cons, settled_cons_invoke, settled_app, IH, settled_callback.
  rewrite filter_cons. unfold promises.
  destruct (decide (declines (callback this) device cb)) as [Hd | Hd].
  - by rewrite decide_False by auto.
  - by rewrite decide_True by done.
Qed.

Lemma BaseHub_attachDevice_settled this device :
  exists this' trace,
    _attachDevice this device = Normal (this', trace)
    /\ invoked trace = promises (reverse (_attachCallbacks this))
    /\ settled trace
       = promises
           (filter (fun cb => ~ declines (callback (stored this device)) device cb)
              (reverse (_attachCallbacks this)))
    /\ _attachCallbacks this'
       = filter (declines (callback (stored this device)) device)
           (_attachCallbacks this).
Proof.
  eexists _, _. split; [apply BaseHub_attachDevice_eq |].
  split; [| split; [| reflexivity]].
  - change (invoked (?e :: ?t)) with (invoked t).
    apply invoked_calls. intros cb. apply callback_quiet.
  - change (settled (?e :: ?t)) with (settled t). apply settled_calls.
Qed.

(** X10. [BaseHub._attachDevice] never fails.  It calls every pending
    waiter once, from the last registered to the first; the promises it
    resolves are those of the waiters that are satisfied, in that order;
    and the list of pending waiters it leaves is the old one without the
    satisfied waiters, the others in their old order. *)
Theorem BaseHub_attach_scans_waiters_in_reverse this device :
  exists this' trace,
    _attachDevice this device = Normal (this', trace)
    /\ invoked trace = promises (reverse (_attachCallbacks this))
    /\ settled trace
       = promises
           (filter (fun cb => ~ declines (callback (stored this device)) device cb)
              (reverse (_attachCallbacks this)))
    /\ _attachCallbacks this'
       = filter (declines (callback (stored this device)) device)
           (_attachCallbacks this).
Proof. apply BaseHub_attachDevice_settled. Qed.

(** What one call does to the promises: those it settles and those it
    leaves pending are, together, those that were pending and the one it
    brings. *)
Lemma handle_settles this (n : Call) :
  exists this' trace,
    handle this n = Normal (this', trace)
    /\ settled trace ++ promises (_attachCallbacks this')
       ≡ₚ promises (_attachCallbacks this) ++ waits [n].
Proof.
  destruct n as [device | device | name p | deviceType p]; simpl.
  - destruct (BaseHub_attachDevice_settled this device)
      as (this' & trace & -> & _ & Hsettled & Hpending).
    exists this', trace. split; [reflexivity |].
    rewrite Hsettled, Hpending.
    unfold waits, promises. simpl. rewrite app_nil_r, <- fmap_app.
    apply fmap_Permutation.
    rewrite reverse_Permutation, Permutation_app_comm.
    apply filter_app_complement.
  - eexists _, _. split; [reflexivity |]. simpl. by rewrite app_nil_r.
  - eexists _, _. split; [apply f_equal, surjective_pairing |].
    unfold waitForDeviceAtPort, waits, promises.
    destruct (getDeviceAtPort this name) as [[existingDevice |] | e]; simpl.
    + apply Permutation_cons_append.
    + by rewrite fmap_app.
    + apply Permutation_cons_append.
  - eexists _, _. split; [apply f_equal, surjective_pairing |].
    unfold waitForDeviceByType, waits, promises.
    destruct (getDevicesByType this deviceType) as [| existingDevice ?]; simpl.
    + by rewrite fmap_app.
    + apply Permutation_cons_append.
Qed.

Lemma waits_cons (n : Call) (ns : list Call) : waits (n :: ns) = waits [n] ++ waits ns.
Proof. unfold waits. by destruct n. Qed.

Lemma run_settles ns : forall this,
  exists this' trace,
    run this ns = Normal (this', trace)
    /\ settled trace ++ promises (_attachCallbacks this')
       ≡ₚ promises (_attachCallbacks this) ++ waits ns.
Proof.
  induction ns as [| n ns IH]; intros this.
  - eexists _, _. split; [reflexivity |]. simpl. by rewrite app_nil_r.
  - cbn [run].
    destruct (handle_settles this n) as (this1 & trace1 & -> & Hstep).
    rewrite bind_Normal. cbv beta iota.
    destruct (IH this1) as (this2 & trace2 & -> & Hrest).
    rewrite bind_Normal. cbv beta iota.
    eexists _, _. split; [reflexivity |].
    rewrite settled_app, waits_cons, <- app_assoc, Hrest.
    rewrite !app_assoc. by rewrite Hstep.
Qed.

(** X11. Over any sequence of calls handled by a new [BaseHub], every wait
    is accounted for: the promises settled so far and the promises of the
    waiters still pending are, together, exactly the promises of the waits
    that were made.  So when the waits were made with different promises,
    no promise is settled twice and none is both settled and still
    pending. *)
Theorem every_wait_is_pending_or_settled_once
    (portMap : Table) (type : Z) (ns : list Call) :
  exists this trace,
    run (create portMap type) ns = Normal (this, trace)
    /\ settled trace ++ promises (_attachCallbacks this) ≡ₚ waits ns
    /\ (NoDup (waits ns) ->
        NoDup (settled trace)
        /\ NoDup (promises (_attachCallbacks this))
        /\ forall p, p ∈ settled trace -> p ∉ promises (_attachCallbacks this)).
Proof.
  destruct (run_settles ns (create portMap type)) as (this & trace & Hrun & Hperm).
  exists this, trace. split; [done |]. split; [done |].
  rewrite <- Hperm, NoDup_app. tauto.
Qed.

End Waiters.

Section WaitThenAttach.

Import BaseHub.

Implicit Types (this : State) (device : Device) (cb : Callback).

Lemma promises_filter_subseteq (P : Callback -> Prop) `{!forall cb, Decision (P cb)}
    (callbacks : list Callback) (p : nat) :
  p ∈ promises (filter P callbacks) -> p ∈ promises callbacks.
Proof.
  unfold promises. rewrite !list_elem_of_fmap.
  intros (cb & -> & [_ Hin]%list_elem_of_filter). eauto.
Qed.

(** An attach on a hub whose last registered waiter has a promise of its
    own. *)
Lemma attach_after_register this cb device :
  promise cb ∉ promises (_attachCallbacks this) ->
  let this1 := set_attachCallbacks this (_attachCallbacks this ++ [cb]) in
  exists this' trace,
    _attachDevice this1 device = Normal (this', trace)
    /\ ((callback (stored this1 device) cb device).1 = true ->
        (exists rest, settled trace = promise cb :: rest /\ promise cb ∉ rest)
        /\ resolve (promise cb) device ∈ trace
        /\ promise cb ∉ promises (_attachCallbacks this'))
    /\ ((callback (stored this1 device) cb device).1 = false ->
        (promise cb ∉ settled trace) /\ cb ∈ _attachCallbacks this').
Proof.
  intros Hfresh this1.
  destruct (BaseHub_attachDevice_scan this1 device)
    as (this' & trace & Hattach & _ & Hpending & Hresolved).
  exists this', trace. split; [done |].
  assert (settled trace
          = promises (filter (fun cb => ~ declines (callback (stored this1 device)) device cb)
                        (reverse (_attachCallbacks this1)))) as Hsettled.
  { rewrite BaseHub_attachDevice_eq in Hattach. injection Hattach as _ <-.
    change (settled (?e :: ?t)) with (settled t). apply settled_calls. }
  change (_attachCallbacks this1) with (_attachCallbacks this ++ [cb]) in *.
  rewrite reverse_snoc, filter_cons in Hsettled.
  rewrite filter_app, filter_cons, filter_nil in Hpending.
  split; intros Hsat.
  - rewrite decide_True in Hsettled by (unfold declines; congruence).
    rewrite decide_False in Hpending by (unfold declines; congruence).
    split; [| split].
    + eexists. split; [exact Hsettled |].
      intros Hin%promises_filter_subseteq. apply Hfresh.
      unfold promises in *. by rewrite fmap_reverse, elem_of_reverse in Hin.
    + apply (Hresolved cb); [| done]. apply elem_of_app. right. apply list_elem_of_here.
    + rewrite Hpending, app_nil_r. by intros Hin%promises_filter_subseteq.
  - rewrite decide_False in Hsettled by (unfold declines; tauto).
    rewrite decide_True in Hpending by done.
    split.
    + rewrite Hsettled. intros Hin%promises_filter_subseteq. apply Hfresh.
      unfold promises in *. by rewrite fmap_reverse, elem_of_reverse in Hin.
    + rewrite Hpending. apply elem_of_app. right. apply list_elem_of_here.
Qed.

(** X12. [waitForDeviceByType] on a [BaseHub] without a device of the type,
    with a promise no pending waiter has: nothing is settled by the call;
    the next attach of a device of that type resolves the promise with
    that device, first among the promises it settles and once, and the
    waiter is gone; an attach of a device of another type leaves the
    promise unsettled and the waiter pending. *)
Theorem waitForDeviceByType_is_resolved_by_the_attach
    this (deviceType : Z) (p : nat) device :
  getDevicesByType this deviceType = [] ->
  p ∉ promises (_attachCallbacks this) ->
  (waitForDeviceByType this deviceType p).2 = []
  /\ exists this' trace,
       _attachDevice (waitForDeviceByType this deviceType p).1 device
       = Normal (this', trace)
       /\ (type device = deviceType ->
           (exists rest, settled trace = p :: rest /\ p ∉ rest)
           /\ resolve p device ∈ trace
           /\ p ∉ promises (_attachCallbacks this'))
       /\ (type device <> deviceType ->
           (p ∉ settled trace)
           /\ {| promise := p; waiter := ByType deviceType |}
              ∈ _attachCallbacks this').
Proof.
  intros Hnone Hfresh. unfold waitForDeviceByType. rewrite Hnone. cbn [fst snd].
  split; [done |].
  destruct (attach_after_register this
              {| promise := p; waiter := ByType deviceType |} device Hfresh)
    as (this' & trace & Hattach & Hsat & Hdecl).
  exists this', trace. split; [done |]. split; intros Htype.
  - apply Hsat. unfold callback. simpl. by rewrite decide_True.
  - apply Hdecl. unfold callback. simpl. by rewrite decide_False.
Qed.

(** X13. [waitForDeviceAtPort] on a [BaseHub] whose port map has pairwise
    different ids, for a port of the hub, with a promise no pending waiter
    has.  When a device is already on the port the promise is resolved
    with it at once and no waiter is registered.  When the port is empty
    nothing is settled by the call; the next attach on that port resolves
    the promise with the new device, first and once, and the waiter is
    gone; an attach on another port leaves the promise unsettled and the
    waiter pending. *)
Theorem waitForDeviceAtPort_is_resolved_by_the_attach
    this (name : string) (id : Z) (p : nat) device :
  NoDup (_portMap this).*2 ->
  property (_portMap this) name = Some id ->
  p ∉ promises (_attachCallbacks this) ->
  (forall existing, _attachedDevices this !! id = Some existing ->
     waitForDeviceAtPort this name p = (this, [resolve p existing]))
  /\ (_attachedDevices this !! id = None ->
      (waitForDeviceAtPort this name p).2 = []
      /\ exists this' trace,
           _attachDevice (waitForDeviceAtPort this name p).1 device
           = Normal (this', trace)
           /\ (portId device = id ->
               (exists rest, settled trace = p :: rest /\ p ∉ rest)
               /\ resolve p device ∈ trace
               /\ p ∉ promises (_attachCallbacks this'))
           /\ (portId device <> id ->
               (p ∉ settled trace)
               /\ {| promise := p; waiter := AtPort name |}
                  ∈ _attachCallbacks this')).
Proof.
  intros Hnodup Hname Hfresh.
  unfold waitForDeviceAtPort.
  rewrite (BaseHub_getDeviceAtPort_known _ _ _ Hname).
  split; [by intros existing -> |].
  intros ->. cbn [fst snd]. split; [done |].
  destruct (attach_after_register this
              {| promise := p; waiter := AtPort name |} device Hfresh)
    as (this' & trace & Hattach & Hsat & Hdecl).
  exists this', trace. split; [done |].
  destruct (getPortNameForPortId_facts (_portMap this) (portId device))
    as (Hsound & _ & Hfound).
  split; intros Hport.
  - apply Hsat. unfold callback, portName, getPortNameForPortId. simpl.
    rewrite decide_True; [done |]. apply Hfound; [by rewrite Hport | done].
  - apply Hdecl. unfold callback, portName, getPortNameForPortId. simpl.
    rewrite decide_False; [done |].
    intros [_ Hname']%Hsound. congruence.
Qed.

End WaitThenAttach.

Section HubWaiters.

Import Hub.

Implicit Types (hub : State) (device : Device).

Lemma Hub_handle_callbacks hub (n : Call) :
  _attachCallbacks hub `prefix_of` _attachCallbacks (handle hub n).1.
Proof.
  destruct n as [device | device | name p | deviceType p]; simpl; try done.
  - unfold waitForDeviceAtPort.
    destruct (getDeviceAtPort hub name) as [[existingDevice |] | e]; simpl;
      first [done | by apply prefix_app_r].
  - unfold waitForDeviceByType.
    destruct (getDevicesByType hub deviceType); simpl;
      first [done | by apply prefix_app_r].
Qed.

Lemma Hub_run_cons hub (n : Call) (ns : list Call) :
  (run hub (n :: ns)).1 = (run (handle hub n).1 ns).1.
Proof.
  simpl. destruct (handle hub n) as [hub1 trace1]. simpl.
  by destruct (run hub1 ns).
Qed.

Lemma Hub_run_callbacks ns : forall hub,
  _attachCallbacks hub `prefix_of` _attachCallbacks (run hub ns).1.
Proof.
  induction ns as [| n ns IH]; intros hub; [done |].
  rewrite Hub_run_cons. etrans; [apply Hub_handle_callbacks | apply IH].
Qed.

(** X14. A [Hub] never takes a waiter off its list: through any sequence
    of calls the list of waiters only grows at its end, and every attach
    calls all the waiters registered so far, in registration order,
    whether or not they were satisfied before. *)
Theorem Hub_never_forgets_a_waiter hub (ns : list Call) device :
  _attachCallbacks hub `prefix_of` _attachCallbacks (run hub ns).1
  /\ invoked (_attachDevice (run hub ns).1 device).2
     = promises (_attachCallbacks (run hub ns).1)
  /\ promises (_attachCallbacks hub)
     `prefix_of` invoked (_attachDevice (run hub ns).1 device).2.
Proof.
  pose proof (Hub_run_callbacks ns hub) as Hprefix.
  destruct (Hub_attachDevice_forward (run hub ns).1 device) as (Hinvoked & _).
  split; [done |]. split; [done |].
  rewrite Hinvoked. destruct Hprefix as [more ->].
  unfold promises. rewrite fmap_app. by apply prefix_app_r.
Qed.

End HubWaiters.

(* ===================================================================== *)
(** ** More on creating, attaching and detaching devices *)
(* ===================================================================== *)

Section CreateAgreement.

Import Consts.

Variable DeviceType : DeviceTypeName -> Z.
Variable super_args : Class.t -> option (gmap string Z) * Z.
Hypothesis DeviceType_inj : Inj (=) (=) DeviceType.

Lemma cases_in_registry (n : DeviceTypeName) (c : Class.t) :
  (n, c) ∈ Hub.cases -> (n, c) ∈ BaseHub.registry.
Proof.
  unfold Hub.cases, BaseHub.registry. rewrite !elem_of_cons, !elem_of_nil.
  intros Hin. repeat (destruct Hin as [-> | Hin]; [tauto |]). done.
Qed.

Lemma cases_functional (n : DeviceTypeName) (c c' : Class.t) :
  (n, c) ∈ Hub.cases -> (n, c') ∈ Hub.cases -> c = c'.
Proof.
  unfold Hub.cases. rewrite !elem_of_cons, !elem_of_nil.
  intros Hin Hin'. destruct_or!; by simplify_eq.
Qed.

Lemma Hub_createDevice_case (hub : Hub.State) (n : DeviceTypeName)
    (c : Class.t) (p : Z) :
  (n, c) ∈ Hub.cases ->
  Hub._createDevice DeviceType super_args hub (DeviceType n) p
  = new DeviceType super_args c p.
Proof.
  intros Hin.
  destruct (switch_Some DeviceType Hub.cases (DeviceType n) n)
    as (n' & c' & Hin' & Hcode%DeviceType_inj & Hswitch); [| done |].
  { apply list_elem_of_fmap. by exists (n, c). }
  subst n'. unfold Hub._createDevice. rewrite Hswitch.
  by rewrite (cases_functional n c c').
Qed.

(** X15. With pairwise different type codes, [Hub._createDevice] and
    [BaseHub._createDevice] build the same device for every type that has
    a case in the [switch] of [Hub], an instance of the class written in
    that case; for a type that has none (the voltage sensor, the hub LED
    and the other built-in devices), [Hub] builds a generic [Device] where
    [BaseHub] builds a decoder. *)
Theorem Hub_and_BaseHub_create_the_same_decoders
    (this : BaseHub.State) (hub : Hub.State) (p : Z) :
  (forall n c, (n, c) ∈ Hub.cases ->
     Hub._createDevice DeviceType super_args hub (DeviceType n) p
     = BaseHub._createDevice DeviceType super_args this (DeviceType n) p
     /\ class (Hub._createDevice DeviceType super_args hub (DeviceType n) p) = c)
  /\ (forall n, n ∉ Hub.cases.*1 ->
      Hub._createDevice DeviceType super_args hub (DeviceType n) p
      = {| class := Class.Device; portId := p; modeMap := None;
           type := DeviceType n |}
      /\ class (BaseHub._createDevice DeviceType super_args this (DeviceType n) p)
         <> Class.Device).
Proof.
  split.
  - intros n c Hin.
    rewrite (Hub_createDevice_case hub n c p Hin).
    rewrite (createDevice_registered DeviceType super_args this n c p
               DeviceType_inj (cases_in_registry n c Hin)).
    split; [done | apply new_class].
  - intros n Hn. split.
    + unfold Hub._createDevice. rewrite switch_None; [done |].
      intros n' Hn' Heq%DeviceType_inj. by subst n'.
    + destruct (deviceConstructors_Some DeviceType (DeviceType n) n eq_refl)
        as (n' & c & Hin & _ & Hlookup).
      unfold BaseHub._createDevice. rewrite Hlookup.
      destruct (new_class DeviceType super_args c p) as [-> _].
      by apply (registry_decoders n').
Qed.

End CreateAgreement.

Section Discovery.

Import Consts BaseHub.

Variable DeviceType : DeviceTypeName -> Z.
Variable super_args : Class.t -> option (gmap string Z) * Z.

Implicit Types (this : State) (device : Device).

Lemma createDevice_portId this (deviceType p : Z) :
  portId (_createDevice DeviceType super_args this deviceType p) = p.
Proof.
  unfold _createDevice.
  destruct (deviceConstructors DeviceType !! deviceType) as [c |]; [| done].
  apply new_class.
Qed.

Lemma detach_reads_empty this device (name : string) :
  property (_portMap this) name = Some (portId device) ->
  getDeviceAtPort (_detachDevice this device).1 name = Normal None.
Proof.
  intros Hname.
  rewrite (BaseHub_getDeviceAtPort_known _ name (portId device)) by done.
  simpl. by rewrite lookup_delete_eq.
Qed.

(** X16. A device created for a port of a [BaseHub] and attached is found
    there: under the port id by [_getDeviceByPortId], under the name of the
    port by [getDeviceAtPort], and among [getDevices]; the attach emits
    "attach" with it and nothing else; and once it is detached the port
    reads empty again. *)
Theorem created_device_is_found_at_its_port
    this (deviceType p : Z) (name : string) :
  property (_portMap this) name = Some p ->
  exists this' trace,
    _attachDevice this (_createDevice DeviceType super_args this deviceType p)
    = Normal (this', trace)
    /\ emitted trace
       = [("attach", _createDevice DeviceType super_args this deviceType p)]
    /\ _getDeviceByPortId this' p
       = Some (_createDevice DeviceType super_args this deviceType p)
    /\ getDeviceAtPort this' name
       = Normal (Some (_createDevice DeviceType super_args this deviceType p))
    /\ _createDevice DeviceType super_args this deviceType p ∈ getDevices this'
    /\ getDeviceAtPort
         (_detachDevice this'
            (_createDevice DeviceType super_args this deviceType p)).1 name
       = Normal None.
Proof.
  intros Hname.
  set (device := _createDevice DeviceType super_args this deviceType p).
  assert (portId device = p) as Hport by apply createDevice_portId.
  destruct (BaseHub_attachDevice_emitted this device)
    as (this' & trace & Hattach & Hemitted & Hdevices & Hports).
  exists this', trace. split; [done |]. split; [done |].
  assert (_attachedDevices this' !! p = Some device) as Hfound.
  { rewrite Hdevices, Hport. apply lookup_insert_eq. }
  split; [done |]. split; [| split].
  - rewrite (BaseHub_getDeviceAtPort_known this' name p) by (by rewrite Hports).
    by rewrite Hfound.
  - unfold getDevices. apply values_by_key. by exists p.
  - apply detach_reads_empty. by rewrite Hports, Hport.
Qed.

End Discovery.

Section AttachDetachRoundTrip.

Implicit Types (device : Device).

(** X17. An attach followed by the detach of the same device, on a
    [BaseHub] and on a [Hub]: the two events emitted are "attach" and
    "detach", and the table is the one before the attach without the entry
    of the port.  So the table is restored when the port was empty, and a
    device that was replaced by the attach does not come back. *)
Theorem attach_then_detach_empties_the_port
    (this : BaseHub.State) (hub : Hub.State) device :
  (exists this' trace,
     BaseHub._attachDevice this device = Normal (this', trace)
     /\ emitted (trace ++ (BaseHub._detachDevice this' device).2)
        = [("attach", device); ("detach", device)]
     /\ BaseHub._attachedDevices (BaseHub._detachDevice this' device).1
        = delete (portId device) (BaseHub._attachedDevices this)
     /\ (BaseHub._attachedDevices this !! portId device = None ->
         BaseHub._attachedDevices (BaseHub._detachDevice this' device).1
         = BaseHub._attachedDevices this))
  /\ (emitted ((Hub._attachDevice hub device).2
               ++ (Hub._detachDevice (Hub._attachDevice hub device).1 device).2)
      = [("attach", device); ("detach", device)]
      /\ Hub._attachedDevices
           (Hub._detachDevice (Hub._attachDevice hub device).1 device).1
         = delete (portId device) (Hub._attachedDevices hub)
      /\ (Hub._attachedDevices hub !! portId device = None ->
          Hub._attachedDevices
            (Hub._detachDevice (Hub._attachDevice hub device).1 device).1
          = Hub._attachedDevices hub)).
Proof.
  split.
  - destruct (BaseHub_attachDevice_emitted this device)
      as (this' & trace & Hattach & Hemitted & Hdevices & _).
    exists this', trace. split; [done |].
    split; [by rewrite emitted_app, Hemitted |].
    simpl. rewrite Hdevices, delete_insert_eq.
    split; [done | apply delete_id].
  - destruct (Hub_attachDevice_forward hub device) as (_ & _ & Hemitted & Hdevices).
    split; [by rewrite emitted_app, Hemitted |].
    simpl. rewrite delete_insert_eq.
    split; [done | apply delete_id].
Qed.

End AttachDetachRoundTrip.

(* ===================================================================== *)
(** ** Hub: one device per port *)
(* ===================================================================== *)

Section HubOneDevicePerPort.

Import Hub.

Implicit Types (hub : State) (device : Device).

Lemma Hub_handle_frame hub (n : Call) :
  _portMap (handle hub n).1 = _portMap hub
  /\ _attachedDevices (handle hub n).1
     = match n with
       | attach device => <[portId device := device]> (_attachedDevices hub)
       | detach device => delete (portId device) (_attachedDevices hub)
       | _ => _attachedDevices hub
       end.
Proof.
  destruct n as [device | device | name p | deviceType p]; simpl; try done.
  - unfold waitForDeviceAtPort.
    by destruct (getDeviceAtPort hub name) as [[existingDevice |] | e].
  - unfold waitForDeviceByType. by destruct (getDevicesByType hub deviceType).
Qed.

Lemma Hub_keyed_handle hub (n : Call) : keyed hub -> keyed (handle hub n).1.
Proof.
  intros Hkeyed p device. destruct (Hub_handle_frame hub n) as [_ ->].
  destruct n as [d | d | name promise | deviceType promise]; [| | apply Hkeyed ..].
  - destruct (decide (portId d = p)) as [<- | Hne].
    + rewrite lookup_insert_eq. by intros [= <-].
    + rewrite lookup_insert_ne by done. apply Hkeyed.
  - destruct (decide (portId d = p)) as [<- | Hne].
    + by rewrite lookup_delete_eq.
    + rewrite lookup_delete_ne by done. apply Hkeyed.
Qed.

Lemma Hub_keyed_run ns : forall hub, keyed hub -> keyed (run hub ns).1.
Proof.
  induction ns as [| n ns IH]; intros hub Hkeyed; [done |].
  rewrite Hub_run_cons. by apply IH, Hub_keyed_handle.
Qed.

Lemma Hub_run_portMap ns : forall hub, _portMap (run hub ns).1 = _portMap hub.
Proof.
  induction ns as [| n ns IH]; intros hub; [done |].
  rewrite Hub_run_cons, IH. apply Hub_handle_frame.
Qed.

Lemma Hub_run_keeps_port_empty ns : forall hub (p : Z),
  _attachedDevices hub !! p = None ->
  Forall (fun n => forall d, n = attach d -> portId d <> p) ns ->
  _attachedDevices (run hub ns).1 !! p = None.
Proof.
  induction ns as [| n ns IH]; intros hub p Hempty Hns; [done |].
  apply Forall_cons in Hns as [Hn Hns].
  rewrite Hub_run_cons. apply IH; [| done].
  destruct (Hub_handle_frame hub n) as [_ ->].
  destruct n as [d | d | name promise | deviceType promise]; [| | done ..].
  - rewrite lookup_insert_ne; [done | by apply Hn].
  - rewrite lookup_delete_None. by right.
Qed.

(** X18. Whatever calls a new [Hub] has handled, its table holds at most
    one device per port id; and once a device is detached from a port whose
    id is not 0, [getDeviceAtPort] for the name of the port returns absent
    through any further calls that attach nothing to that port. *)
Theorem Hub_one_device_per_port (portMap : Table) (type : Z) (ns : list Call) :
  NoDup (portId <$> getDevices (run (create portMap type) ns).1)
  /\ (forall device name ns',
      property portMap name = Some (portId device) ->
      portId device <> 0 ->
      Forall (fun n => forall d, n = attach d -> portId d <> portId device) ns' ->
      getDeviceAtPort
        (run (_detachDevice (run (create portMap type) ns).1 device).1 ns').1 name
      = Normal None).
Proof.
  split.
  - assert (keyed (run (create portMap type) ns).1) as Hkeyed.
    { apply Hub_keyed_run. intros p device. simpl. by rewrite lookup_empty. }
    unfold getDevices.
    rewrite merge_sort_Permutation, <- list_fmap_compose.
    replace (portId ∘ snd <$> map_to_list (_attachedDevices (run (create portMap type) ns).1))
      with ((map_to_list (_attachedDevices (run (create portMap type) ns).1)).*1).
    + apply NoDup_fst_map_to_list.
    + apply Forall_fmap_ext_1, Forall_forall. intros [p device] Hin.
      apply elem_of_map_to_list in Hin. simpl. symmetry. by apply Hkeyed.
  - intros device name ns' Hname Hne Hns'.
    rewrite (Hub_getDeviceAtPort_known _ name (portId device));
      [| by rewrite Hub_run_portMap; simpl; rewrite Hub_run_portMap | done].
    f_equal. apply Hub_run_keeps_port_empty; [apply lookup_delete_eq | done].
Qed.

End HubOneDevicePerPort.

Section WaitByTypeAtOnce.

Import BaseHub.

Implicit Types (this : State) (device : Device).

(** X19. [waitForDeviceByType] on a [BaseHub] that holds a device of the
    type resolves the promise at once, with a device of that type that is
    in the table, and registers no waiter. *)
Theorem waitForDeviceByType_resolves_at_once
    this (deviceType : Z) (p : nat) (q : Z) device :
  _attachedDevices this !! q = Some device ->
  type device = deviceType ->
  exists existing q',
    waitForDeviceByType this deviceType p = (this, [resolve p existing])
    /\ type existing = deviceType
    /\ _attachedDevices this !! q' = Some existing.
Proof.
  intros Hdevice Htype. unfold waitForDeviceByType.
  destruct (getDevicesByType this deviceType) as [| existing others] eqn:Hfound.
  - assert (device ∈ getDevicesByType this deviceType) as Hin.
    { unfold getDevicesByType. apply list_elem_of_filter. split; [done |].
      unfold getDevices. apply values_by_key. by exists q. }
    rewrite Hfound in Hin. by apply elem_of_nil in Hin.
  - assert (existing ∈ getDevicesByType this deviceType) as Hin
        by (rewrite Hfound; apply list_elem_of_here).
    unfold getDevicesByType in Hin.
    apply list_elem_of_filter in Hin as [Hexisting Hin].
    unfold getDevices in Hin. apply values_by_key in Hin as [q' Hq'].
    by exists existing, q'.
Qed.

End WaitByTypeAtOnce.

(* ===================================================================== *)
(** ** The further properties on the sample hub and buffers *)
(* ===================================================================== *)

Section FurtherExamples.

Import Sample.

Lemma decoders_emit_events_of_the_current_mode_witness :
  (length [notify "rgb" (Rgb 100 200 300)] <= 1)%nat
  /\ DuploTrainBaseColorSensor.ModeMap !! "rgb" = Some 3.
Proof.
  destruct (decoders_emit_events_of_the_current_mode silent HubType
              (decoder 3 0 false) rgb_400_800_1200 eq_refl) as [Hcolor _].
  destruct (Hcolor [notify "rgb" (Rgb 100 200 300)] eq_refl) as [Hlength Hnames].
  split; [exact Hlength |].
  apply (Hnames (notify "rgb" (Rgb 100 200 300))). apply list_elem_of_here.
Defined.

Lemma color_sensor_values_in_range_witness : in_range (Rgb 100 200 300).
Proof.
  apply (color_sensor_values_in_range silent (decoder 3 0 false) rgb_400_800_1200
           [notify "rgb" (Rgb 100 200 300)] "rgb" (Rgb 100 200 300));
    [reflexivity | reflexivity | apply list_elem_of_here].
Defined.

Lemma voltage_scaling_by_hub_type_witness :
  VoltageSensor.receive HubType (decoder 0 5 false) raw_3893
  = Normal [emitGlobal "voltage" (Voltage (number 3893 * 6.4 / 3047))].
Proof.
  destruct (voltage_scaling_by_hub_type HubType Sample_HubType_inj
              (decoder 0 5 false) raw_3893 x35 x0f eq_refl eq_refl eq_refl eq_refl)
    as [Hduplo _].
  exact (Hduplo eq_refl).
Defined.

Lemma voltage_on_wedo2_is_signed_witness :
  exists raw,
    VoltageSensor.receive HubType (decoder 0 1 true) raw_3893
    = Normal [emitGlobal "voltage" (Voltage (number raw / 40))]
    /\ -32768 <= raw <= 32767
    /\ raw mod 65536 = 40 + 0 * 256
    /\ (raw < 0 <-> 128 <= 0).
Proof.
  exact (voltage_on_wedo2_is_signed HubType (decoder 0 1 true) raw_3893 x28 x00
           eq_refl eq_refl eq_refl eq_refl).
Defined.

Lemma button_event_is_the_raw_byte_witness :
  RemoteControlButton.receive (decoder 0 4 false) color_7
  = Normal [emitGlobal "remoteButton" (Button (Some 7))].
Proof.
  exact (proj1 (button_event_is_the_raw_byte (decoder 0 4 false) color_7 x07
                  eq_refl eq_refl)).
Defined.

Lemma waitForDeviceByType_is_resolved_by_the_attach_witness :
  exists this' trace,
    BaseHub._attachDevice (BaseHub.waitForDeviceByType basehub 8 1).1 light_B
    = Normal (this', trace)
    /\ resolve 1 light_B ∈ trace.
Proof.
  destruct (waitForDeviceByType_is_resolved_by_the_attach basehub 8 1%nat light_B
              eq_refl (not_elem_of_nil _))
    as (_ & this' & trace & Hattach & Hsame & _).
  exists this', trace. split; [exact Hattach |].
  exact (proj1 (proj2 (Hsame eq_refl))).
Defined.

Lemma Sample_portMap_NoDup : NoDup portMap.*2.
Proof.
  unfold portMap. simpl. apply NoDup_cons. split.
  - intros Hin%list_elem_of_singleton. discriminate Hin.
  - apply NoDup_singleton.
Defined.

Lemma waitForDeviceAtPort_is_resolved_by_the_attach_witness :
  exists this' trace,
    BaseHub._attachDevice (BaseHub.waitForDeviceAtPort basehub "B" 1).1 light_B
    = Normal (this', trace)
    /\ resolve 1 light_B ∈ trace.
Proof.
  destruct (waitForDeviceAtPort_is_resolved_by_the_attach basehub "B" 1 1%nat light_B
              Sample_portMap_NoDup eq_refl (not_elem_of_nil _))
    as (_ & Hempty).
  destruct (Hempty eq_refl) as (_ & this' & trace & Hattach & Hsame & _).
  exists this', trace. split; [exact Hattach |].
  exact (proj1 (proj2 (Hsame eq_refl))).
Defined.

Lemma Sample_DeviceType_inj : Inj (=) (=) DeviceType.
Proof.
  intros n n' Heq. destruct n; destruct n'; first [reflexivity | discriminate Heq].
Defined.

Lemma Hub_and_BaseHub_create_the_same_decoders_witness :
  Hub._createDevice DeviceType super_args hub (DeviceType Consts.TRAIN_MOTOR) 0
  = BaseHub._createDevice DeviceType super_args basehub (DeviceType Consts.TRAIN_MOTOR) 0
  /\ class (Hub._createDevice DeviceType super_args hub (DeviceType Consts.TRAIN_MOTOR) 0)
     = Class.TrainMotor.
Proof.
  apply (Hub_and_BaseHub_create_the_same_decoders DeviceType super_args
           Sample_DeviceType_inj basehub hub 0).
  unfold Hub.cases. apply list_elem_of_further, list_elem_of_here.
Defined.

Lemma created_device_is_found_at_its_port_witness :
  exists this' trace,
    BaseHub._attachDevice basehub
      (BaseHub._createDevice DeviceType super_args basehub 20 1)
    = Normal (this', trace)
    /\ BaseHub.getDeviceAtPort this' "B"
       = Normal (Some (BaseHub._createDevice DeviceType super_args basehub 20 1)).
Proof.
  destruct (created_device_is_found_at_its_port DeviceType super_args basehub 20 1 "B"
              eq_refl)
    as (this' & trace & Hattach & _ & _ & Hfound & _).
  exists this', trace. split; [exact Hattach | exact Hfound].
Defined.

Lemma waitForDeviceByType_resolves_at_once_witness :
  exists existing q',
    BaseHub.waitForDeviceByType (BaseHub.stored basehub light_B) 8 1
    = (BaseHub.stored basehub light_B, [resolve 1 existing])
    /\ type existing = 8
    /\ BaseHub._attachedDevices (BaseHub.stored basehub light_B) !! q' = Some existing.
Proof.
  exact (waitForDeviceByType_resolves_at_once (BaseHub.stored basehub light_B)
           8 1%nat 1 light_B eq_refl eq_refl).
Defined.

Lemma every_event_of_a_ModeMap_is_decoded_witness :
  exists p, VoltageSensor.receive HubType (decoder 0 3 false) rgb_400_800_1200
            = Normal [emitGlobal "voltage" p].
Proof.
  destruct (every_event_of_a_ModeMap_is_decoded silent HubType (decoder 0 3 false)
              rgb_400_800_1200 "voltage" 0 eq_refl eq_refl)
    as (_ & Hvoltage & _).
  - simpl. lia.
  - exact (Hvoltage eq_refl).
Defined.

(** Names inherited from [Object.prototype] are not ports, yet the lookup
    does not throw for them, and a wait for one registers a waiter; a name
    that is neither a port nor inherited throws. *)
Lemma getDeviceAtPort_on_inherited_names :
  BaseHub.getDeviceAtPort basehub "toString" = Normal None
  /\ Hub.getDeviceAtPort hub "constructor" = Normal None
  /\ BaseHub.getDeviceAtPort basehub "C"
     = Throw (Error "Port C does not exist on this hub type")
  /\ Hub.getDeviceAtPort hub "C"
     = Throw (Error "Port C does not exist on this hub type")
  /\ BaseHub._attachCallbacks (BaseHub.waitForDeviceAtPort basehub "toString" 1).1
     = [{| promise := 1; waiter := AtPort "toString" |}].
Proof. repeat split. Qed.

End FurtherExamples.
